(** * stummtext: template rendering, scratch-directory compilation, pipeline

    A shallow embedding of [stummtext.py].  The module renders a Jinja2
    template against a data mapping, writes the markup into a temporary
    directory, runs [pdflatex] there and moves [input.pdf] to the requested
    output path.

    Python values are modelled as follows.
    - [str] is [string]; a [dict] with string keys is a [gmap string _].
    - An exception is a constructor of [Exn]; a call that may raise returns
      a [result].
    - The file system, the live temporary directories, the number of child
      processes created and the number of debugger entries form the [World];
      code with effects is a function [World -> result A * World].
    - What the module does not define itself (the program found under the
      name [pdflatex], whether the operating system lets a rename through,
      what the breakpoint hook does, the names [tempfile] proposes for new
      directories, [repr] of a string, the text of Jinja's own global
      objects) is collected in the record [Env]. *)

From Stdlib Require Import ZArith Ascii String.
From stdpp Require Import gmap strings list fin_maps.

Local Open Scope string_scope.

(** ** Exceptions and results *)

Inductive Exn : Type :=
  | KeyError (key : string)
  | UndefinedError (missing : string)
  | TypeError
  | ValueError
  | FileNotFoundError
  | OSError
  | CalledProcessError (returncode : Z) (stdout stderr : string)
  | BdbQuit.

Inductive result (A : Type) : Type :=
  | Ok (a : A)
  | Raise (e : Exn).

Arguments Ok {A} a.
Arguments Raise {A} e.

Definition is_ok {A} (r : result A) : bool :=
  match r with Ok _ => true | Raise _ => false end.

(** Python's [LookupError] is the base class of [KeyError] (and of
    [IndexError], which nothing here raises). *)
Definition is_LookupError (e : Exn) : bool :=
  match e with KeyError _ => true | _ => false end.

(** ** The page-size registry (lines 9-24) *)

Record PaperSize : Type := mkPaperSize {
  width : string;
  height : string;
  name : string
}.

(** The dict literal [PAPER_SIZES]; its keys are pairwise distinct. *)
Definition PAPER_SIZES : gmap string PaperSize :=
  list_to_map [
    ("a3", mkPaperSize "297mm" "420mm" "A3");
    ("a4", mkPaperSize "210mm" "297mm" "A4");
    ("a5", mkPaperSize "148mm" "210mm" "A5");
    ("b5", mkPaperSize "176mm" "250mm" "B5");
    ("letter", mkPaperSize "8.5in" "11in" "US Letter");
    ("legal", mkPaperSize "8.5in" "14in" "US Legal");
    ("remarkable2", mkPaperSize "180mm" "250mm" "reMarkable2");
    ("phone", mkPaperSize "70mm" "150mm" "phone")
  ].

(** The subscript [d[key]] of a dict: the value, or [KeyError] (a subclass
    of Python's [LookupError]).  The dict is an object that a call could
    change, so the subscript returns it as it is after the call. *)
Definition dict_getitem {V} (d : gmap string V) (key : string)
  : result V * gmap string V :=
  match d !! key with
  | Some v => (Ok v, d)
  | None => (Raise (KeyError key), d)
  end.

(** [PAPER_SIZES[key]], as at lines 133 and 139. *)
Definition PAPER_SIZES_getitem (key : string)
  : result PaperSize * gmap string PaperSize :=
  dict_getitem PAPER_SIZES key.

(** A dimension as the typesetting engine reads it: a decimal number and
    one of TeX's units. *)
Definition TeX_units : list string :=
  ["pt"; "pc"; "in"; "bp"; "cm"; "mm"; "dd"; "cc"; "sp"; "em"; "ex"].

Fixpoint span_number (s : string) : string * string :=
  match s with
  | String c s' =>
      if bool_decide (is_Some (Ascii.is_nat c)) || Ascii.eqb c "."
      then let '(number, rest) := span_number s' in (String c number, rest)
      else (EmptyString, s)
  | EmptyString => (EmptyString, EmptyString)
  end.

Fixpoint count_char (c : ascii) (s : string) : nat :=
  match s with
  | String x s' => (if Ascii.eqb x c then 1 else 0) + count_char c s'
  | EmptyString => 0
  end.

Definition is_dimension (s : string) : bool :=
  let '(number, unit_) := span_number s in
  bool_decide (count_char "." number < String.length number)%nat
  && bool_decide (count_char "." number ≤ 1)%nat
  && bool_decide (unit_ ∈ TeX_units).

(** ** The world the module acts on *)

Record World : Type := mkWorld {
  (** files outside the temporary directories: path and contents *)
  files : gmap string string;
  (** the temporary directories that exist, each with its files *)
  tmpdirs : gmap string (gmap string string);
  (** child processes created so far *)
  children : nat;
  (** times the debugger was entered so far *)
  debugger_entries : nat
}.

(** ** What the module takes from its environment *)

(** The three fields of the named tuple, as attribute names. *)
Inductive field : Type := f_width | f_height | f_name.

(** A finished child process: exit status, the captured streams, and the
    files of its working directory when it exits. *)
Record CompletedProcess : Type := mkCompleted {
  returncode : Z;
  stdout : string;
  stderr : string;
  cwd_after : gmap string string
}.

Record Env : Type := mkEnv {
  (** [repr] of a [str] *)
  py_repr : string -> string;
  (** the text Jinja writes for one of its own names (or for an attribute
      of it) when the data does not define that name *)
  jinja_own_str : string -> option field -> string;
  (** starting [argv] in a working directory with the given files: [None]
      when the program cannot be started (the executable is missing), else
      what the process does; a child writes inside its working directory
      only *)
  spawn : list string -> gmap string string -> option CompletedProcess;
  (** whether the operating system carries out a rename onto this path
      (it refuses when the target is a directory, lies in a directory that
      does not exist or cannot be written, or is on another file system) *)
  rename_permitted : string -> bool;
  (** what [sys.breakpointhook] does: [None] when the session is resumed,
      [Some e] when it ends by raising [e] (the debugger's quit command) *)
  breakpointhook : option Exn;
  (** the name that [tempfile]'s generator of random names proposes for a
      new directory when it is asked in this world; the generator's state
      is not part of the world, so nothing is known of how the proposals
      of two calls relate *)
  random_name : World -> string
}.

(** ** The fragment of Jinja2 that the module's templates use *)

(** Values a data mapping holds: the module passes strings and a
    [PaperSize]. *)
Inductive value : Type :=
  | VStr (s : string)
  | VPaperSize (p : PaperSize).

(** A parsed template is a sequence of output nodes: literal text, a name
    [{{ n }}], or an attribute of a name [{{ n.a }}].  A name is an
    identifier other than the literals [true], [false] and [none], which
    the parser reads as constants. *)
Inductive node : Type :=
  | TemplateData (s : string)
  | Name (n : string)
  | Getattr (n : string) (a : field).

Record Template : Type := mkTemplate { body : list node }.

(** Names an environment built with the defaults resolves when the data
    does not: [jinja2.defaults.DEFAULT_NAMESPACE] and the template
    reference [self]. *)
Definition DEFAULT_NAMESPACE : list string :=
  ["range"; "dict"; "lipsum"; "cycler"; "joiner"; "namespace"].

Definition jinja_own (n : string) : bool :=
  bool_decide (n ∈ (DEFAULT_NAMESPACE ++ ["self"])%list).

Definition get_field (a : field) (p : PaperSize) : string :=
  match a with
  | f_width => width p
  | f_height => height p
  | f_name => name p
  end.

Definition references (t : Template) (n : string) : Prop :=
  Name n ∈ body t ∨ ∃ a, Getattr n a ∈ body t.

Definition accesses_attribute (t : Template) (n : string) : Prop :=
  ∃ a, Getattr n a ∈ body t.

Section Jinja.
Context (E : Env).

(** [str(v)]; for a named tuple this is its [repr]. *)
Definition py_str (v : value) : string :=
  match v with
  | VStr s => s
  | VPaperSize p =>
      "PaperSize(width=" +:+ py_repr E (width p) +:+
      ", height=" +:+ py_repr E (height p) +:+
      ", name=" +:+ py_repr E (name p) +:+ ")"
  end.

(** One output node.  The templates are built by [Template(source)]
    without an [undefined=] argument, so a name that nothing defines is
    the default [Undefined]: written out it is the empty string, and an
    attribute taken from it raises [UndefinedError].  A string value has
    none of the three attributes and cannot be subscripted by a string,
    so the attribute is again [Undefined] and prints as nothing. *)
Definition render_node (d : gmap string value) (nd : node) : result string :=
  match nd with
  | TemplateData s => Ok s
  | Name n =>
      match d !! n with
      | Some v => Ok (py_str v)
      | None => if jinja_own n then Ok (jinja_own_str E n None) else Ok ""
      end
  | Getattr n a =>
      match d !! n with
      | Some (VPaperSize p) => Ok (get_field a p)
      | Some (VStr _) => Ok ""
      | None =>
          if jinja_own n then Ok (jinja_own_str E n (Some a))
          else Raise (UndefinedError n)
      end
  end.

(** The nodes are written out from left to right; the first exception
    ends the rendering. *)
Fixpoint render_nodes (d : gmap string value) (nds : list node)
  : result string :=
  match nds with
  | [] => Ok ""
  | nd :: rest =>
      match render_node d nd with
      | Raise e => Raise e
      | Ok s =>
          match render_nodes d rest with
          | Raise e => Raise e
          | Ok s' => Ok (s +:+ s')
          end
      end
  end.

(** [template.render] called with the entries of [data] as keyword
    arguments.  The method's first parameter is called
    [self], so a keyword of that name is a [TypeError] of the call. *)
Definition Template_render (t : Template) (d : gmap string value)
  : result string :=
  if bool_decide ("self" ∈ dom d) then Raise TypeError
  else render_nodes d (body t).

(** Lines 27-28. *)
Definition render_template (template : Template) (data : gmap string value)
  : result string :=
  Template_render template data.

End Jinja.

(** ** [pathlib] on POSIX, as far as line 50 uses it

    [Path(filename)] splits the string at slashes, drops empty components
    and single dots, and keeps a root of one slash (or of two, when the
    string starts with exactly two).  The definitions follow CPython's
    [PurePosixPath] as of Python 3.8 to 3.12 ([splitroot], [parse_parts],
    [name], [suffix], [with_suffix], [__str__]). *)

Module pathlib.

Definition sep : ascii := "/"%char.

Fixpoint lstrip (c : ascii) (s : string) : string :=
  match s with
  | String x s' => if Ascii.eqb x c then lstrip c s' else s
  | EmptyString => EmptyString
  end.

(** [s.split(c)]: the pieces between the occurrences of [c]. *)
Fixpoint split (c : ascii) (s : string) : list string :=
  match s with
  | EmptyString => [EmptyString]
  | String x s' =>
      if Ascii.eqb x c then EmptyString :: split c s'
      else match split c s' with
           | [] => [String x EmptyString]
           | piece :: pieces => String x piece :: pieces
           end
  end.

(** [c.join(l)] *)
Fixpoint join (c : ascii) (l : list string) : string :=
  match l with
  | [] => EmptyString
  | [x] => x
  | x :: rest => x +:+ String c (join c rest)
  end.

(** [s.rfind(c)]: the index of the last [c], or -1. *)
Fixpoint rfind (c : ascii) (s : string) : Z :=
  match s with
  | EmptyString => (-1)%Z
  | String x s' =>
      let i := rfind c s' in
      if (0 <=? i)%Z then (i + 1)%Z
      else if Ascii.eqb x c then 0%Z else (-1)%Z
  end.

Fixpoint contains (c : ascii) (s : string) : bool :=
  match s with
  | EmptyString => false
  | String x s' => Ascii.eqb x c || contains c s'
  end.

Definition startswith (c : ascii) (s : string) : bool :=
  match s with
  | String x _ => Ascii.eqb x c
  | EmptyString => false
  end.

(** [s[i:]] and [s[:i]] for [0 <= i]. *)
Fixpoint drop_str (i : nat) (s : string) : string :=
  match i, s with
  | S i', String _ s' => drop_str i' s'
  | _, _ => s
  end.

Fixpoint take_str (i : nat) (s : string) : string :=
  match i, s with
  | S i', String x s' => String x (take_str i' s')
  | _, _ => EmptyString
  end.

(** A parsed path: the root ([""], ["/"] or ["//"]) and the components
    after it.  There is no drive on POSIX. *)
Record PurePath : Type := mkPath {
  root : string;
  parts : list string
}.

(** [_PosixFlavour.splitroot] *)
Definition splitroot (part : string) : string * string :=
  if startswith sep part then
    let stripped_part := lstrip sep part in
    if (String.length part - String.length stripped_part =? 2)%nat
    then ("//", stripped_part)
    else ("/", stripped_part)
  else ("", part).

(** [Path(filename)]: [parse_parts] on the one argument. *)
Definition Path (filename : string) : PurePath :=
  let '(rt, rel) := splitroot filename in
  mkPath rt
    (filter (λ x, x ≠ EmptyString ∧ x ≠ ".") (split sep rel)).

(** [str(path)] *)
Definition str (p : PurePath) : string :=
  let s := root p +:+ join sep (parts p) in
  if bool_decide (s = EmptyString) then "." else s.

(** The property [name]: the last component, or the empty string. *)
Definition name (p : PurePath) : string :=
  List.last (parts p) EmptyString.

(** The property [suffix] of a file name. *)
Definition suffix_of (nm : string) : string :=
  let i := rfind "."%char nm in
  if ((0 <? i) && (i <? Z.of_nat (String.length nm) - 1))%Z
  then drop_str (Z.to_nat i) nm
  else EmptyString.

Definition suffix (p : PurePath) : string := suffix_of (name p).

(** [path.with_suffix(suffix)] *)
Definition with_suffix (p : PurePath) (sfx : string) : result PurePath :=
  if contains sep sfx then Raise ValueError
  else if (bool_decide (sfx ≠ EmptyString) && negb (startswith "."%char sfx))
          || bool_decide (sfx = ".")
  then Raise ValueError
  else
    let nm := name p in
    if bool_decide (nm = EmptyString) then Raise ValueError
    else
      let old_suffix := suffix p in
      let nm' :=
        if bool_decide (old_suffix = EmptyString) then nm +:+ sfx
        else take_str (String.length nm - String.length old_suffix) nm +:+ sfx
      in
      Ok (mkPath (root p) (removelast (parts p) ++ [nm'])%list).

End pathlib.

Definition set_files (f : gmap string string → gmap string string)
  (w : World) : World :=
  mkWorld (f (files w)) (tmpdirs w) (children w) (debugger_entries w).

Definition set_tmpdirs
  (f : gmap string (gmap string string) → gmap string (gmap string string))
  (w : World) : World :=
  mkWorld (files w) (f (tmpdirs w)) (children w) (debugger_entries w).

Definition count_child (w : World) : World :=
  mkWorld (files w) (tmpdirs w) (S (children w)) (debugger_entries w).

Definition count_debugger (w : World) : World :=
  mkWorld (files w) (tmpdirs w) (children w) (S (debugger_entries w)).

(** Code with effects: it runs in a world and leaves a result (a value or
    an exception) and a world. *)
Definition M (A : Type) : Type := World → result A * World.

Definition ret {A} (a : A) : M A := λ w, (Ok a, w).

Definition raise {A} (e : Exn) : M A := λ w, (Raise e, w).

(** A call that has no effect. *)
Definition pure_call {A} (r : result A) : M A := λ w, (r, w).

(** Sequencing: an exception of the first part ends the whole. *)
Definition bind {A B} (m : M A) (k : A → M B) : M B :=
  λ w, match m w with
       | (Ok a, w') => k a w'
       | (Raise e, w') => (Raise e, w')
       end.

Notation "'let*' x := m 'in' k" := (bind m (λ x, k))
  (at level 10, x name, m at level 100, k at level 200, only parsing).

(** [try: body except <class>: handler], for the exceptions that
    [handles] accepts. *)
Definition try_except {A} (body : M A) (handles : Exn → bool)
  (handler : Exn → M A) : M A :=
  λ w, match body w with
       | (Raise e, w') => if handles e then handler e w' else (Raise e, w')
       | (Ok a, w') => (Ok a, w')
       end.

Definition is_CalledProcessError (e : Exn) : bool :=
  match e with CalledProcessError _ _ _ => true | _ => false end.

(** The name [mkdtemp] gives a new directory.  [tempfile] draws random
    names until one is the name of no existing directory: the name is the
    generator's proposal when that is unused, and some unused name
    otherwise. *)
Definition mkdtemp_name (E : Env) (w : World) : string :=
  let candidate := random_name E w in
  if bool_decide (candidate ∈ dom (tmpdirs w))
  then fresh (dom (tmpdirs w))
  else candidate.

(** [with tempfile.TemporaryDirectory() as tmpdir: body].  The directory
    is created empty, the body runs, and the directory is removed with all
    it holds whether the body returned or raised. *)
Definition with_TemporaryDirectory {A} (E : Env) (body : string → M A)
  : M A :=
  λ w, let tmpdir := mkdtemp_name E w in
       let '(r, w') := body tmpdir (set_tmpdirs (insert tmpdir ∅) w) in
       (r, set_tmpdirs (delete tmpdir) w').

(** [(Path(dir) / name).write_text(text)] *)
Definition write_text (dir name text : string) : M unit :=
  λ w, match tmpdirs w !! dir with
       | None => (Raise FileNotFoundError, w)
       | Some fs => (Ok tt, set_tmpdirs (insert dir (<[name:=text]> fs)) w)
       end.

(** [(Path(dir) / name).exists()] *)
Definition exists_ (dir name : string) : M bool :=
  λ w, (Ok (bool_decide (is_Some (tmpdirs w !! dir ≫= λ fs, fs !! name))), w).

(** [str(Path(dir) / name)] *)
Definition path_in (dir name : string) : string :=
  dir +:+ "/" +:+ name.

Section Runner.
Context (E : Env).

(** [subprocess.run(args, cwd=cwd, check=check, stdout=PIPE, stderr=PIPE)]:
    the child runs to its end in [cwd]; with [check] a status other than
    zero raises [CalledProcessError], which carries the status and both
    captured streams. *)
Definition run (args : list string) (cwd : string) (check : bool)
  : M CompletedProcess :=
  λ w, match tmpdirs w !! cwd with
       | None => (Raise FileNotFoundError, w)
       | Some fs =>
           match spawn E args fs with
           | None => (Raise FileNotFoundError, w)
           | Some cp =>
               let w' := count_child
                           (set_tmpdirs (insert cwd (cwd_after cp)) w) in
               if check && negb (returncode cp =? 0)%Z
               then (Raise (CalledProcessError (returncode cp) (stdout cp)
                              (stderr cp)), w')
               else (Ok cp, w')
           end
       end.

(** [(Path(dir) / name).rename(target)]: the file leaves the directory and
    becomes the file at [target], replacing what was there. *)
Definition rename (dir name target : string) : M unit :=
  λ w, match tmpdirs w !! dir with
       | None => (Raise FileNotFoundError, w)
       | Some fs =>
           match fs !! name with
           | None => (Raise FileNotFoundError, w)
           | Some content =>
               if rename_permitted E target
               then (Ok tt,
                     set_files (insert target content)
                       (set_tmpdirs (insert dir (delete name fs)) w))
               else (Raise OSError, w)
           end
       end.

(** [breakpoint()] *)
Definition breakpoint : M unit :=
  λ w, (match breakpointhook E with
        | None => Ok tt
        | Some e => Raise e
        end, count_debugger w).

(** The command line of line 39. *)
Definition latex_argv (tex_path : string) : list string :=
  ["pdflatex"; "-interaction=nonstopmode"; tex_path].

(** What the engine does when [run_latex] starts it for [input_tex] in
    the world [w]: it is started on the path of [input.tex] inside the new
    directory, which holds that one file. *)
Definition engine_run (input_tex : string) (w : World)
  : option CompletedProcess :=
  spawn E (latex_argv (path_in (mkdtemp_name E w) "input.tex"))
    {["input.tex" := input_tex]}.

(** Lines 31-46. *)
Definition run_latex (input_tex output_path : string) : M unit :=
  try_except
    (with_TemporaryDirectory E (λ tmpdir,
       let tex_path := path_in tmpdir "input.tex" in
       let* _ := write_text tmpdir "input.tex" input_tex in
       let latex_cmd := λ args, run args tmpdir true in
       let* _ := latex_cmd (latex_argv tex_path) in
       let* present := exists_ tmpdir "input.pdf" in
       if present then rename tmpdir "input.pdf" output_path
       else ret tt))
    is_CalledProcessError
    (λ e, let* _ := breakpoint in raise e).

(** Lines 49-51. *)
Definition render_latex (tex filename : string) : M unit :=
  let* output_path :=
    pure_call (pathlib.with_suffix (pathlib.Path filename) ".pdf") in
  run_latex tex (pathlib.str output_path).

(** Lines 54-55: [lambda x: g(f(x))].  The argument [f(x)] is evaluated
    before [g] is called, so an exception of [f] leaves [g] uncalled. *)
Definition compose {A B C} (f : A → M B) (g : B → M C) : A → M C :=
  λ x, let* y := f x in g y.

(** [partial(render_template, template)] and
    [partial(render_latex, filename=output_file)]. *)
Definition partial_first {A B C} (f : A → B → C) (a : A) : B → C :=
  λ b, f a b.

Definition partial_filename {A B C} (f : A → B → C) (filename : B) : A → C :=
  λ a, f a filename.

(** The call [render_template(template, data)] as a step of the program:
    it has a result and touches nothing. *)
Definition render_template_call (template : Template)
  (data : gmap string value) : M string :=
  pure_call (render_template E template data).

(** Lines 58-65. *)
Definition process_document (template : Template)
  (data : gmap string value) (output_file : string) : M unit :=
  let pipeline :=
    compose
      (partial_first render_template_call template)
      (partial_filename render_latex output_file) in
  pipeline data.

(** The pipeline as the specification words it: render, then compile
    with the caller's output path, and an error of either stage is the
    result. *)
Definition process_spec (template : Template)
  (data : gmap string value) (outputPath : string) : M unit :=
  λ w, match render_template E template data with
       | Raise e => (Raise e, w)
       | Ok markup => render_latex markup outputPath w
       end.

End Runner.
(** ** The values at module level (lines 68-140) *)

(** The raw string [long_text]. *)
Definition long_text : string :=
  " Antarctica is the coldest, windiest, and most remote
continent on Earth. Located at the South Pole, it's covered almost
entirely by ice and snow. This massive land is bigger than Europe and
is surrounded by the Southern Ocean.

Almost all of Antarctica (about 98\%) is covered by an ice sheet that's
very thick - in some places, it's more than 4 kilometers deep. This
ice sheet contains about 90% of all the world's ice. If it were to
melt completely, sea levels worldwide would rise by about 60 meters.

The weather in Antarctica is extreme. The average winter temperature
near the South Pole is about -60°C (-76°F), while coastal areas are
slightly warmer. In summer, coastal regions might reach just above
freezing point. Strong winds, sometimes reaching over 300 kilometers
per hour, blow across the continent, making it even colder.

".

(** [Template(source)] parses its argument with the default settings,
    under which the lexer removes one newline from the end of the source.
    The figure template has no expressions: it is one piece of text. *)
Definition figure_markup : string :=
  "
\begin{figure}[h]
\begin{tikzpicture}
\begin{axis}[
    width=\textwidth,
    xlabel=X axis,
    ylabel=Y axis,
    scatter/classes={
        a={mark=o,draw=black}
    }
]
\addplot[scatter,only marks,scatter src=explicit symbolic]
    coordinates {
        (1,2)[a]
        (2,4)[a]
        (3,5)[a]
        (4,4)[a]
        (5,7)[a]
    };
\addplot[red,domain=0:6] {1.2*x + 1};
\end{axis}
\end{tikzpicture}
\caption{Scatter plot with linear regression}
\label{fig:scatter}
\end{figure}".

Definition template_figure : Template :=
  mkTemplate [TemplateData figure_markup].

(** The document template: text, and the expressions [pagesize.width],
    [pagesize.height], [margin], [title] and [content]. *)
Definition template : Template :=
  mkTemplate [
    TemplateData "
\documentclass{article}
\usepackage[paperwidth={ ";
    Getattr "pagesize" f_width;
    TemplateData " },
            paperheight={ ";
    Getattr "pagesize" f_height;
    TemplateData " },
            margin={ ";
    Name "margin";
    TemplateData " }]{geometry}

\usepackage{tikz}
\usepackage{pgfplots}
\pgfplotsset{compat=1.18} % or whatever recent version you have
\usepackage{float} % for the [h] placement specifier

\begin{document}
\section{ ";
    Name "title";
    TemplateData " }
";
    Name "content";
    TemplateData "
\end{document}"
  ].

(** [s * n] on strings. *)
Fixpoint str_mul (s : string) (n : nat) : string :=
  match n with
  | O => EmptyString
  | S n' => s +:+ str_mul s n'
  end.

(** The dict literals of lines 131-134 and 137-140, given the values of
    the two expressions in them that are calls. *)
Definition make_testdata (pagesize : PaperSize) : gmap string value :=
  list_to_map [
    ("title", VStr "A nice document");
    ("content", VStr (str_mul long_text 10));
    ("pagesize", VPaperSize pagesize);
    ("margin", VStr "3mm")
  ].

Definition make_testdata2 (figure : string) (pagesize : PaperSize)
  : gmap string value :=
  list_to_map [
    ("title", VStr "A nice document");
    ("content", VStr (long_text +:+ figure +:+ str_mul long_text 3));
    ("pagesize", VPaperSize pagesize);
    ("margin", VStr "3mm")
  ].

(** The value [testdata2] is bound to when line 143 is reached: the
    figure template has nothing to substitute, and the registry has the
    key [remarkable2]. *)
Definition testdata2 : gmap string value :=
  make_testdata2 figure_markup (mkPaperSize "180mm" "250mm" "reMarkable2").

Section Module_level.
Context (E : Env).

(** The statements the import of the module executes, from line 131 on,
    in order.  The names bound before ([PAPER_SIZES], [long_text], the two
    templates) are the definitions above. *)
Definition module_body : M unit :=
  let* phone := pure_call (PAPER_SIZES_getitem "phone").1 in
  let testdata := make_testdata phone in
  let* figure := pure_call (Template_render E template_figure ∅) in
  let* remarkable2 := pure_call (PAPER_SIZES_getitem "remarkable2").1 in
  let testdata2 := make_testdata2 figure remarkable2 in
  let* _ := process_document E template testdata2 "test-phone.pdf" in
  process_document E template testdata2 "test-remarkable.pdf".

End Module_level.

(** ** Concrete environments and worlds *)

(** An engine that leaves a log, and a document when [pdf] is given. *)
Definition engine (status : Z) (diagnostics : string) (pdf : option string)
  (argv : list string) (fs : gmap string string) : option CompletedProcess :=
  let fs' := <["input.log" := diagnostics]> fs in
  Some (mkCompleted status diagnostics ""
          (match pdf with Some doc => <["input.pdf" := doc]> fs' | None => fs' end)).

Definition no_engine (argv : list string) (fs : gmap string string)
  : option CompletedProcess := None.

(** [repr] of a string that has no quote, backslash or control
    character in it. *)
Definition quote (s : string) : string := "'" +:+ s +:+ "'".

Definition env_of
  (sp : list string → gmap string string → option CompletedProcess)
  (permitted : bool) (hook : option Exn) : Env :=
  mkEnv quote (λ _ _, "<object>") sp (λ _, permitted) hook
    (λ w, "/tmp/tmp" +:+ str_mul "a" (children w)).

(** Another process: Jinja's own objects print differently, the
    generator of names proposes other names, no engine is installed. *)
Definition env_other_process : Env :=
  mkEnv quote (λ n _, "<" +:+ n +:+ " at 0x7f3a>") no_engine (λ _, false)
    (Some BdbQuit) (λ _, "/var/tmp/tmpzz").

Definition env_ok : Env := env_of (engine 0 "Output written" (Some "%PDF-1.5")) true None.
Definition env_failing : Env := env_of (engine 1 "! Emergency stop." None) true None.
Definition env_quit : Env := env_of (engine 1 "! Emergency stop." None) true (Some BdbQuit).
Definition env_silent : Env := env_of (engine 0 "No pages of output." None) true None.
Definition env_absent : Env := env_of no_engine true None.
Definition env_readonly : Env := env_of (engine 0 "Output written" (Some "%PDF-1.5")) false None.

Definition empty_world : World := mkWorld ∅ ∅ 0 0.

Definition world_with_old_output : World :=
  mkWorld {["out.pdf" := "old"]} ∅ 0 0.

(** The markup the document template gives for [testdata2]. *)
Definition testdata2_markup : string :=
  match render_template env_ok template testdata2 with
  | Ok markup => markup
  | Raise _ => EmptyString
  end.

(** A template that asks for [content2], and data without it. *)
Definition template_content2 : Template :=
  mkTemplate [
    TemplateData "\section{ "; Name "title"; TemplateData " }
";
    Name "content2"
  ].

Definition data_title_only : gmap string value :=
  {["title" := VStr "T"]}.

(** A template that takes an attribute of [pagesize], and the same data. *)
Definition template_pagesize : Template :=
  mkTemplate [
    TemplateData "paperwidth={ "; Getattr "pagesize" f_width;
    TemplateData " }"
  ].

(** The data of the first scenario of the specification. *)
Definition data_a4 : gmap string value :=
  list_to_map [
    ("title", VStr "T");
    ("content", VStr "Hello");
    ("pagesize", VPaperSize (mkPaperSize "210mm" "297mm" "A4"));
    ("margin", VStr "2cm")
  ].

(** The markup of the document template (lines 113-128) with the four
    fields in their places. *)
Definition document_markup (pagesize : PaperSize)
  (margin title content : string) : string :=
  "
\documentclass{article}
\usepackage[paperwidth={ " +:+
  width pagesize +:+
  " },
            paperheight={ " +:+
  height pagesize +:+
  " },
            margin={ " +:+
  margin +:+
  " }]{geometry}

\usepackage{tikz}
\usepackage{pgfplots}
\pgfplotsset{compat=1.18} % or whatever recent version you have
\usepackage{float} % for the [h] placement specifier

\begin{document}
\section{ " +:+
  title +:+
  " }
" +:+
  content +:+
  "
\end{document}".

(** The property [stem] of a file name: the name without its suffix. *)
Definition path_stem (nm : string) : string :=
  if bool_decide (pathlib.suffix_of nm = EmptyString) then nm
  else pathlib.take_str
         (String.length nm - String.length (pathlib.suffix_of nm)) nm.

(** What [Path] makes of every string: a root of no, one or two slashes,
    and components that are not empty, not a single dot, and have no slash
    in them. *)
Definition wf_part (x : string) : Prop :=
  x ≠ EmptyString ∧ x ≠ "." ∧ pathlib.contains pathlib.sep x = false.

Definition wf_path (p : pathlib.PurePath) : Prop :=
  pathlib.root p ∈ [EmptyString; "/"; "//"] ∧ Forall wf_part (pathlib.parts p).

(** What a file name consists of, read off the string itself: the
    number of slashes it starts with, the root these stand for (two
    slashes are kept, any other number is one slash), and what is between
    its slashes, empty pieces and single dots left out. *)
Fixpoint count_leading (c : ascii) (s : string) : nat :=
  match s with
  | String x s' => if Ascii.eqb x c then S (count_leading c s') else 0
  | EmptyString => 0
  end.

Definition leading_root (filename : string) : string :=
  match count_leading "/" filename with
  | 0 => EmptyString
  | 2 => "//"
  | _ => "/"
  end.

Definition components (filename : string) : list string :=
  filter (λ x, x ≠ EmptyString ∧ x ≠ ".") (pathlib.split "/" filename).

(** The string of a path with this root and these components. *)
Definition path_string (rt : string) (comps : list string) : string :=
  rt +:+ pathlib.join "/" comps.

(** The data of the first scenario with a key the template does not use. *)
Definition data_a4_with_author : gmap string value :=
  <["author" := VStr "N. N."]> data_a4.

(** * Properties *)

(** ** The scratch directory and the runner *)

Lemma mkdtemp_name_fresh (E : Env) (w : World) :
  tmpdirs w !! mkdtemp_name E w = None.
Proof.
  unfold mkdtemp_name. apply not_elem_of_dom.
  case_bool_decide; [apply is_fresh|done].
Qed.

(** The [with] block removes its directory whatever the body does and
    however it ends. *)
Lemma with_TemporaryDirectory_removes {A} (E : Env) (body : string → M A)
    (w : World) :
  tmpdirs (with_TemporaryDirectory E body w).2 !! mkdtemp_name E w = None.
Proof.
  unfold with_TemporaryDirectory.
  destruct (body _ _) as [r w1]. simpl. apply lookup_delete_eq.
Qed.

Section Runner_facts.
Context (E : Env).

(** The whole of [run_latex] by cases on what the engine does. *)
Lemma run_latex_cases (input_tex output_path : string) (w : World) :
  run_latex E input_tex output_path w =
  match engine_run E input_tex w with
  | None => (Raise FileNotFoundError, w)
  | Some cp =>
      if (returncode cp =? 0)%Z then
        match cwd_after cp !! "input.pdf" with
        | None => (Ok tt, count_child w)
        | Some pdf =>
            if rename_permitted E output_path
            then (Ok tt, set_files (insert output_path pdf) (count_child w))
            else (Raise OSError, count_child w)
        end
      else
        (match breakpointhook E with
         | None => Raise (CalledProcessError (returncode cp) (stdout cp)
                            (stderr cp))
         | Some e => Raise e
         end, count_debugger (count_child w))
  end.
Proof.
  pose proof (mkdtemp_name_fresh E w) as Hfresh.
  unfold run_latex, try_except, with_TemporaryDirectory, bind, write_text,
    run, exists_, rename, breakpoint, raise, ret, engine_run.
  destruct w as [fs tds ch dbg]; simpl in *.
  set (d := mkdtemp_name _ _) in *.
  repeat (rewrite lookup_insert_eq; simpl).
  rewrite insert_empty.
  destruct (spawn E _ _) as [cp|]; simpl.
  2:{ unfold set_tmpdirs; simpl.
      by rewrite ?insert_insert_eq, delete_insert_eq, delete_id. }
  destruct (returncode cp =? 0)%Z eqn:Hrc; simpl.
  - repeat (rewrite lookup_insert_eq; simpl).
    destruct (cwd_after cp !! "input.pdf") as [pdf|] eqn:Hpdf; simpl.
    + rewrite ?bool_decide_eq_true_2 by eauto. simpl.
      repeat (rewrite lookup_insert_eq; simpl). rewrite Hpdf.
      destruct (rename_permitted E output_path); simpl;
        unfold set_tmpdirs, set_files, count_child; simpl;
        by rewrite ?insert_insert_eq, delete_insert_eq, delete_id.
    + rewrite ?bool_decide_eq_false_2 by (intros [? ?]; done). simpl.
      unfold set_tmpdirs, count_child; simpl.
      by rewrite ?insert_insert_eq, delete_insert_eq, delete_id.
  - unfold set_tmpdirs, count_child, count_debugger; simpl.
    rewrite ?insert_insert_eq, delete_insert_eq, delete_id by done.
    destruct (breakpointhook E); done.
Qed.

End Runner_facts.

Section Runner_claims.
Context (E : Env).

(** Whatever happens, [run_latex] changes no file other than the one at
    the output path, and leaves the temporary directories as they were. *)
Lemma run_latex_frame (input_tex output_path : string) (w : World) :
  let w' := (run_latex E input_tex output_path w).2 in
  (tmpdirs w' = tmpdirs w ∧
   (∀ p, p ≠ output_path → files w' !! p = files w !! p) ∧
   (children w' ≤ S (children w))%nat).
Proof.
  rewrite run_latex_cases.
  destruct (engine_run E input_tex w) as [cp|]; simpl; [|auto].
  destruct (returncode cp =? 0)%Z; simpl; [|auto].
  destruct (cwd_after cp !! "input.pdf"); simpl; [|auto].
  destruct (rename_permitted E output_path); simpl; [|auto].
  split_and!; [done| |lia].
  intros p Hp. by rewrite lookup_insert_ne.
Qed.

(** C2, as amended.  When the engine exits with status zero and there is
    no [input.pdf] in the scratch directory, [run_latex] returns normally:
    it raises nothing, writes no file, and the world differs from the one
    before the call only by the one child process that ran. *)
Theorem C2_zero_exit_without_pdf_returns
    (input_tex output_path : string) (w : World) (cp : CompletedProcess) :
  engine_run E input_tex w = Some cp →
  returncode cp = 0%Z →
  cwd_after cp !! "input.pdf" = None →
  run_latex E input_tex output_path w = (Ok tt, count_child w)
  ∧ files (count_child w) = files w
  ∧ tmpdirs (count_child w) = tmpdirs w.
Proof.
  intros Hrun Hrc Hpdf.
  rewrite run_latex_cases, Hrun, Hrc, Hpdf. done.
Qed.

(** C3, as amended.  When the engine exits with a status other than
    zero, [run_latex] does not return: it raises.  The exception is the
    [CalledProcessError] of the engine, with the status and the captured
    streams, once the breakpoint hook hands control back; if the hook
    itself raises, that exception is the one that leaves.  In both cases
    every file outside the scratch directory, the one at the output path
    among them, is as before. *)
Theorem C3_nonzero_exit_raises
    (input_tex output_path : string) (w : World) (cp : CompletedProcess) :
  engine_run E input_tex w = Some cp →
  returncode cp ≠ 0%Z →
  ∃ e w',
    run_latex E input_tex output_path w = (Raise e, w')
    ∧ files w' = files w
    ∧ files w' !! output_path = files w !! output_path
    ∧ (breakpointhook E = None →
       e = CalledProcessError (returncode cp) (stdout cp) (stderr cp))
    ∧ (∀ e', breakpointhook E = Some e' → e = e').
Proof.
  intros Hrun Hrc.
  rewrite run_latex_cases, Hrun.
  destruct (Z.eqb_spec (returncode cp) 0) as [|_]; [done|].
  destruct (breakpointhook E) as [e'|] eqn:Hhook.
  - exists e', (count_debugger (count_child w)).
    split_and!; try done. by intros e'' [= <-].
  - eexists _, (count_debugger (count_child w)). split_and!; done.
Qed.

(** C6.  The directory [run_latex] works in is new (no temporary
    directory of that name exists when the call starts), and when the call
    is over, with a value or with an exception of any kind, that directory
    does not exist, the temporary directories are those from before the
    call, and no file other than the one at the output path has changed.
    The same holds for [render_latex]. *)
Theorem C6_scratch_directory_removed
    (input_tex output_path filename : string) (w : World) :
  let w' := (run_latex E input_tex output_path w).2 in
  let w'' := (render_latex E input_tex filename w).2 in
  ((mkdtemp_name E w ∉ dom (tmpdirs w))
   ∧ (mkdtemp_name E w ∉ dom (tmpdirs w'))
   ∧ tmpdirs w' = tmpdirs w
   ∧ (∀ p, p ≠ output_path → files w' !! p = files w !! p)
   ∧ tmpdirs w'' = tmpdirs w).
Proof.
  pose proof (run_latex_frame input_tex output_path w) as (Ht & Hf & _).
  pose proof (mkdtemp_name_fresh E w) as Hfresh.
  simpl in *. split_and!; try done.
  - by apply not_elem_of_dom.
  - rewrite Ht. by apply not_elem_of_dom.
  - unfold render_latex, bind, pure_call.
    destruct (pathlib.with_suffix _ _) as [p|e]; [|done].
    apply run_latex_frame.
Qed.

(** C4.  [process_document], built with [compose] and the two partial
    applications, is the pipeline of the specification: in every world it
    gives the same result and the same world as rendering and then
    compiling, and an exception of either stage is its result. *)
Theorem C4_process_document_is_render_then_compile
    (template : Template) (data : gmap string value)
    (output_file : string) (w : World) :
  process_document E template data output_file w
  = process_spec E template data output_file w
  ∧ process_document E template data output_file w
    = match render_template E template data with
      | Ok tex => render_latex E tex output_file w
      | Raise e => (Raise e, w)
      end.
Proof.
  unfold process_document, process_spec, compose, partial_first,
    partial_filename, render_template_call, bind, pure_call.
  by destruct (render_template E template data).
Qed.

End Runner_claims.

(** ** The output path *)

Module pathlib_facts.
Import pathlib.

Lemma append_nil_l (t : string) : EmptyString +:+ t = t.
Proof. reflexivity. Qed.

Lemma append_cons (x : ascii) (s t : string) :
  String x s +:+ t = String x (s +:+ t).
Proof. reflexivity. Qed.

Lemma length_append (s t : string) :
  String.length (s +:+ t) = (String.length s + String.length t)%nat.
Proof.
  induction s as [|x s IH]; [done|].
  rewrite append_cons. simpl. by rewrite IH.
Qed.

Lemma append_assoc (s t u : string) : (s +:+ t) +:+ u = s +:+ t +:+ u.
Proof.
  induction s as [|x s IH]; [done|].
  by rewrite !append_cons, IH.
Qed.

Lemma append_nil_inv (s t : string) : s +:+ t = EmptyString → t = EmptyString.
Proof. destruct s; [done|]. rewrite append_cons. discriminate. Qed.

Lemma rfind_ge (c : ascii) (s : string) : (-1 <= rfind c s)%Z.
Proof.
  induction s as [|x s IH]; simpl; [lia|].
  destruct (Z.leb_spec 0 (rfind c s)); [lia|].
  destruct (Ascii.eqb x c); lia.
Qed.

Lemma rfind_lt (c : ascii) (s : string) :
  (rfind c s < Z.of_nat (String.length s))%Z.
Proof.
  induction s as [|x s IH]; simpl String.length; simpl rfind; [lia|].
  destruct (Z.leb_spec 0 (rfind c s)); [lia|].
  destruct (Ascii.eqb x c); lia.
Qed.

(** The last occurrence in [s +:+ t] lies in [t] when [t] has one. *)
Lemma rfind_append (c : ascii) (s t : string) :
  (0 <= rfind c t)%Z →
  rfind c (s +:+ t) = (Z.of_nat (String.length s) + rfind c t)%Z.
Proof.
  intros Ht. induction s as [|x s IH]; simpl String.length.
  - rewrite append_nil_l. lia.
  - rewrite append_cons. simpl rfind. rewrite IH.
    destruct (Z.leb_spec 0 (Z.of_nat (String.length s) + rfind c t)); lia.
Qed.

Lemma drop_str_append (s t : string) : drop_str (String.length s) (s +:+ t) = t.
Proof.
  induction s as [|x s IH]; [by destruct t|].
  rewrite append_cons. exact IH.
Qed.

Lemma length_drop_str (i : nat) (s : string) :
  String.length (drop_str i s) = (String.length s - i)%nat.
Proof.
  revert s. induction i as [|i IH]; intros [|x s]; simpl; try done.
Qed.

Lemma take_str_nonempty (i : nat) (s : string) :
  (0 < i)%nat → s ≠ EmptyString → take_str i s ≠ EmptyString.
Proof. destruct i, s; simpl; try done; lia. Qed.

(** A name that ends in [.pdf] after a non-empty stem has the suffix
    [.pdf]. *)
Lemma suffix_of_pdf (stem : string) :
  stem ≠ EmptyString → suffix_of (stem +:+ ".pdf") = ".pdf".
Proof.
  intros Hstem. unfold suffix_of.
  rewrite rfind_append by (vm_compute; discriminate).
  rewrite length_append. change (rfind "." ".pdf") with 0%Z.
  change (String.length ".pdf") with 4%nat.
  assert (0 < String.length stem)%nat by (destruct stem; simpl; [done|lia]).
  rewrite Z.add_0_r, Nat2Z.id.
  replace ((0 <? Z.of_nat (String.length stem))%Z) with true
    by (symmetry; apply Z.ltb_lt; lia).
  replace ((Z.of_nat (String.length stem)
            <? Z.of_nat (String.length stem + 4) - 1)%Z) with true
    by (symmetry; apply Z.ltb_lt; lia).
  simpl. apply drop_str_append.
Qed.

(** The stem [with_suffix] keeps is never empty. *)
Lemma stem_nonempty (nm : string) :
  nm ≠ EmptyString →
  suffix_of nm ≠ EmptyString →
  take_str (String.length nm - String.length (suffix_of nm)) nm ≠ EmptyString.
Proof.
  intros Hnm. unfold suffix_of.
  pose proof (rfind_lt "." nm) as Hlt.
  destruct (Z.ltb_spec 0 (rfind "." nm)) as [Hpos|]; simpl; [|done].
  destruct (Z.ltb_spec (rfind "." nm) (Z.of_nat (String.length nm) - 1));
    simpl; [|done].
  intros _. rewrite length_drop_str.
  apply take_str_nonempty; [lia|done].
Qed.

Lemma join_snoc (l : list string) (x : string) :
  ∃ pre, join sep (l ++ [x]) = pre +:+ x.
Proof.
  induction l as [|y l [pre IH]]; simpl.
  - by exists EmptyString.
  - destruct (l ++ [x])%list eqn:Hl; [by destruct l|].
    rewrite IH. exists (y +:+ String sep pre).
    by rewrite append_assoc.
Qed.

(** What [with_suffix] with [.pdf] returns, when it returns. *)
Lemma with_suffix_pdf (p p' : PurePath) :
  with_suffix p ".pdf" = Ok p' →
  name p ≠ EmptyString
  ∧ ∃ stem, stem ≠ EmptyString
      ∧ p' = mkPath (root p) (removelast (parts p) ++ [stem +:+ ".pdf"]).
Proof.
  unfold with_suffix. simpl.
  case_bool_decide as Hname; [done|].
  intros [= <-]. split; [done|].
  unfold suffix. case_bool_decide as Hold.
  - by exists (name p).
  - eexists. split; [|done]. by apply stem_nonempty.
Qed.

Lemma name_snoc (r : string) (l : list string) (x : string) :
  name (mkPath r (l ++ [x])) = x.
Proof. unfold name; simpl. apply last_last. Qed.

Lemma str_snoc (r : string) (l : list string) (x : string) :
  x ≠ EmptyString → ∃ pre, str (mkPath r (l ++ [x])) = pre +:+ x.
Proof.
  intros Hx. unfold str; simpl.
  destruct (join_snoc l x) as [pre Hpre]. rewrite Hpre.
  case_bool_decide as Hempty.
  - apply append_nil_inv in Hempty. by apply append_nil_inv in Hempty.
  - exists (r +:+ pre). by rewrite append_assoc.
Qed.

(** The path [render_latex] hands to [run_latex] has the suffix [.pdf],
    and as a string it ends in [.pdf]. *)
Lemma with_suffix_pdf_normalized (p p' : PurePath) :
  with_suffix p ".pdf" = Ok p' →
  suffix p' = ".pdf" ∧ ∃ pre, str p' = pre +:+ ".pdf".
Proof.
  intros Hp. apply with_suffix_pdf in Hp as (_ & stem & Hstem & ->).
  split.
  - unfold suffix. rewrite name_snoc. by apply suffix_of_pdf.
  - destruct (str_snoc (root p) (removelast (parts p)) (stem +:+ ".pdf"))
      as [pre Hpre].
    + intros Hnil. by apply append_nil_inv in Hnil.
    + rewrite Hpre. exists (pre +:+ stem). by rewrite append_assoc.
Qed.

(** [with_suffix] fails only for a path without a name. *)
Lemma with_suffix_pdf_total (p : PurePath) :
  name p ≠ EmptyString → ∃ p', with_suffix p ".pdf" = Ok p'.
Proof.
  intros Hname. unfold with_suffix. simpl.
  rewrite bool_decide_eq_false_2 by done. eauto.
Qed.

End pathlib_facts.

(** ** Rendering *)

Section Jinja_facts.
Context (E : Env).

(** A node raises only as an attribute of a name that is not defined. *)
Lemma render_node_raise (d : gmap string value) (nd : node) (e : Exn) :
  render_node E d nd = Raise e →
  ∃ n a, nd = Getattr n a ∧ d !! n = None ∧ jinja_own n = false
         ∧ e = UndefinedError n.
Proof.
  destruct nd as [s|n|n a]; simpl.
  - discriminate.
  - destruct (d !! n); [discriminate|]. by destruct (jinja_own n).
  - destruct (d !! n) as [[?|?]|] eqn:Hd; try discriminate.
    destruct (jinja_own n) eqn:Hown; [discriminate|].
    intros [= <-]. by exists n, a.
Qed.

Lemma render_node_missing_attribute (d : gmap string value)
    (n : string) (a : field) :
  d !! n = None → jinja_own n = false →
  render_node E d (Getattr n a) = Raise (UndefinedError n).
Proof. intros Hd Hown. simpl. by rewrite Hd, Hown. Qed.

(** A plain reference to a name that nothing defines is written as the
    empty string. *)
Lemma render_node_missing_name (d : gmap string value) (n : string) :
  d !! n = None → jinja_own n = false → render_node E d (Name n) = Ok "".
Proof. intros Hd Hown. simpl. by rewrite Hd, Hown. Qed.

Lemma render_nodes_raise (d : gmap string value) (nds : list node) (e : Exn) :
  render_nodes E d nds = Raise e →
  ∃ n a, Getattr n a ∈ nds ∧ d !! n = None ∧ jinja_own n = false
         ∧ e = UndefinedError n.
Proof.
  induction nds as [|nd nds IH]; simpl; [discriminate|].
  destruct (render_node E d nd) as [s|e'] eqn:Hnd.
  - destruct (render_nodes E d nds) as [s'|e'']; [discriminate|].
    intros [= <-]. destruct IH as (n & a & Hin & ?); [done|].
    exists n, a. split; [by apply list_elem_of_further|done].
  - intros [= <-].
    apply render_node_raise in Hnd as (n & a & -> & ?).
    exists n, a. split; [apply list_elem_of_here|done].
Qed.

(** If some attribute is taken from a name that is not defined, the
    rendering raises, and the exception names such a name. *)
Lemma render_nodes_missing_attribute (d : gmap string value)
    (nds : list node) (n : string) (a : field) :
  Getattr n a ∈ nds → d !! n = None → jinja_own n = false →
  ∃ e, render_nodes E d nds = Raise e.
Proof.
  intros Hin Hd Hown.
  induction nds as [|nd nds IH]; [by apply elem_of_nil in Hin|].
  simpl. destruct (render_node E d nd) as [s|e'] eqn:Hnd; [|eauto].
  apply elem_of_cons in Hin as [<-|Hin].
  - by rewrite render_node_missing_attribute in Hnd.
  - destruct (IH Hin) as [e ->]. eauto.
Qed.

(** With every referenced name defined, the rendering returns markup. *)
Lemma render_nodes_defined (d : gmap string value) (nds : list node) :
  (∀ n a, Getattr n a ∈ nds → is_Some (d !! n)) →
  ∃ markup, render_nodes E d nds = Ok markup.
Proof.
  intros Hdef.
  destruct (render_nodes E d nds) as [s|e] eqn:Hr; [eauto|].
  apply render_nodes_raise in Hr as (n & a & Hin & Hd & _).
  destruct (Hdef n a Hin) as [v Hv]. congruence.
Qed.

(** C1, as amended.  When the template takes an attribute of a name that
    the data does not define (and that is not one of Jinja's own),
    [render_template] raises, and [process_document] raises the same
    exception in a world it has not touched: no child process exists that
    did not exist before.  Unless the data has a key [self], which the call
    itself rejects, the exception is an [UndefinedError] that names a key
    whose attribute the template takes and which the data lacks.  A plain
    reference to a name that nothing defines is no error: it is written
    as the empty string. *)
Theorem C1_missing_attribute_base_fails
    (t : Template) (d : gmap string value) (output_file : string)
    (w : World) (n : string) :
  accesses_attribute t n →
  d !! n = None →
  jinja_own n = false →
  ∃ e, render_template E t d = Raise e
    ∧ process_document E t d output_file w = (Raise e, w)
    ∧ children (process_document E t d output_file w).2 = children w
    ∧ ("self" ∉ dom d →
       ∃ k, e = UndefinedError k ∧ accesses_attribute t k ∧ d !! k = None)
    ∧ (∀ m, d !! m = None → jinja_own m = false →
            render_node E d (Name m) = Ok EmptyString).
Proof.
  intros [a Hin] Hd Hown.
  assert (∃ e, render_template E t d = Raise e
             ∧ ("self" ∉ dom d →
                ∃ k, e = UndefinedError k ∧ accesses_attribute t k
                     ∧ d !! k = None)) as (e & Hr & He).
  { unfold render_template, Template_render.
    case_bool_decide as Hself; [by eexists|].
    destruct (render_nodes_missing_attribute d (body t) n a) as [e Hr];
      [done..|].
    exists e. split; [done|]. intros _.
    apply render_nodes_raise in Hr as (k & b & Hk & Hdk & _ & ->).
    exists k. split_and!; [done| |done]. by exists b. }
  exists e.
  assert (process_document E t d output_file w = (Raise e, w)) as Hp.
  { unfold process_document, compose, partial_first, partial_filename,
      render_template_call, bind, pure_call. by rewrite Hr. }
  rewrite Hp. split_and!; try done.
  intros m Hm Hmown. by apply render_node_missing_name.
Qed.

(** With every referenced name defined, what a node writes is fixed by
    the node and the data: the text of Jinja's own objects, which differs
    from process to process, does not enter. *)
Lemma render_nodes_same_in_env (E' : Env) (d : gmap string value)
    (nds : list node) :
  (∀ s, py_repr E s = py_repr E' s) →
  (∀ n, (Name n ∈ nds ∨ ∃ a, Getattr n a ∈ nds) → is_Some (d !! n)) →
  render_nodes E d nds = render_nodes E' d nds.
Proof.
  intros Hrepr. induction nds as [|nd nds IH]; intros Hdef; [done|].
  simpl. rewrite IH.
  2:{ intros n [Hn|[a Hn]]; apply Hdef;
        [left|right; exists a]; by apply list_elem_of_further. }
  assert (render_node E d nd = render_node E' d nd) as ->; [|done].
  destruct nd as [s|n|n a]; simpl; [done| |].
  - destruct (Hdef n) as [v ->]; [left; apply list_elem_of_here|].
    destruct v as [s|p]; simpl; [done|]. by rewrite !Hrepr.
  - destruct (Hdef n) as [v ->]; [right; exists a; apply list_elem_of_here|].
    done.
Qed.

(** C9.  With every referenced field present, two calls of
    [render_template] with the same template and the same data give the
    same result wherever and whenever they are made: in any two worlds and
    in any two environments, that is in any two processes, each with its
    own objects for Jinja's global names, its own engine, breakpoint hook
    and generator of names ([repr] of a string is Python's and the same in
    both).  Each call leaves its world as it found it, and the common
    result is markup unless the data has a key [self]. *)
Theorem C9_render_is_pure_and_deterministic
    (own' : string → option field → string)
    (spawn' : list string → gmap string string → option CompletedProcess)
    (permitted' : string → bool) (hook' : option Exn)
    (names' : World → string)
    (t : Template) (d : gmap string value) (w w' : World) :
  (∀ n, references t n → is_Some (d !! n)) →
  ∃ r : result string,
    render_template_call E t d w = (r, w)
    ∧ render_template_call
        (mkEnv (py_repr E) own' spawn' permitted' hook' names') t d w'
      = (r, w')
    ∧ ("self" ∉ dom d → ∃ markup, r = Ok markup).
Proof.
  intros Hdef. exists (render_template E t d).
  unfold render_template_call, pure_call, render_template, Template_render.
  split_and!.
  - done.
  - by rewrite (render_nodes_same_in_env
                  (mkEnv (py_repr E) own' spawn' permitted' hook' names')
                  d (body t)).
  - intros Hself. rewrite bool_decide_eq_false_2 by done.
    apply render_nodes_defined. intros n a Hin.
    apply Hdef. right. by exists a.
Qed.

End Jinja_facts.

(** ** The artifact *)

Section Artifact.
Context (E : Env).

(** When the engine leaves a document and the rename is permitted,
    [render_latex] returns for every file name that has a last component:
    the call produces its result. *)
Lemma render_latex_returns
    (tex filename : string) (w : World) (cp : CompletedProcess)
    (pdf : string) (p : pathlib.PurePath) :
  pathlib.with_suffix (pathlib.Path filename) ".pdf" = Ok p →
  engine_run E tex w = Some cp →
  returncode cp = 0%Z →
  cwd_after cp !! "input.pdf" = Some pdf →
  rename_permitted E (pathlib.str p) = true →
  render_latex E tex filename w
  = (Ok tt, set_files (insert (pathlib.str p) pdf) (count_child w)).
Proof.
  intros Hp Hrun Hrc Hpdf Hperm.
  unfold render_latex, bind, pure_call. rewrite Hp.
  by rewrite run_latex_cases, Hrun, Hrc, Hpdf, Hperm.
Qed.

End Artifact.

(** ** The registry *)

(** C7.  A key that the registry does not have raises [KeyError], which is
    a [LookupError], and the registry after the failed subscript is the
    registry; a key that it has gives the value stored under it. *)
Theorem C7_lookup_of_page_size (key : string) :
  (key ∉ dom PAPER_SIZES →
   ∃ e, PAPER_SIZES_getitem key = (Raise e, PAPER_SIZES)
        ∧ e = KeyError key ∧ is_LookupError e = true)
  ∧ (∀ p, PAPER_SIZES !! key = Some p →
          PAPER_SIZES_getitem key = (Ok p, PAPER_SIZES)).
Proof.
  unfold PAPER_SIZES_getitem, dict_getitem. split.
  - intros Hkey%not_elem_of_dom. rewrite Hkey. by eexists.
  - intros p Hp. by rewrite Hp.
Qed.

(** C8.  The registry has the keys [a3], [a4], [a5], [b5], [letter],
    [legal], [phone] and [remarkable2]; the width and the height of every
    preset are non-empty and are a number with a unit; [a4] is 210mm by
    297mm; the phone preset is 70mm by 150mm and the e-reader preset 180mm
    by 250mm. *)
Theorem C8_registry_presets :
  (∀ key, key ∈ ["a3"; "a4"; "a5"; "b5"; "letter"; "legal"; "phone";
                 "remarkable2"] → key ∈ dom PAPER_SIZES)
  ∧ map_Forall (λ _ p, width p ≠ EmptyString ∧ height p ≠ EmptyString
                       ∧ is_dimension (width p) = true
                       ∧ is_dimension (height p) = true)
      PAPER_SIZES
  ∧ PAPER_SIZES_getitem "a4"
    = (Ok (mkPaperSize "210mm" "297mm" "A4"), PAPER_SIZES)
  ∧ PAPER_SIZES !! "phone" = Some (mkPaperSize "70mm" "150mm" "phone")
  ∧ PAPER_SIZES !! "remarkable2"
    = Some (mkPaperSize "180mm" "250mm" "reMarkable2").
Proof.
  split_and!.
  - intros key Hkey. apply elem_of_dom.
    repeat (apply elem_of_cons in Hkey as [->|Hkey]; [by eexists|]).
    by apply elem_of_nil in Hkey.
  - unfold PAPER_SIZES. simpl.
    repeat (apply map_Forall_insert_2; [done|]).
    apply map_Forall_empty.
  - done.
  - done.
  - done.
Qed.

(** ** The import of the module *)

Section At_import.
Context (E : Env).

Lemma render_figure : Template_render E template_figure ∅ = Ok figure_markup.
Proof. vm_compute. reflexivity. Qed.

Lemma render_testdata2 :
  render_template E template testdata2 = Ok testdata2_markup.
Proof. vm_compute. reflexivity. Qed.

Lemma module_body_calls (w : World) :
  module_body E w
  = (let* _ := process_document E template testdata2 "test-phone.pdf" in
     process_document E template testdata2 "test-remarkable.pdf") w.
Proof.
  unfold module_body.
  change ((PAPER_SIZES_getitem "phone").1)
    with (Ok (mkPaperSize "70mm" "150mm" "phone")).
  change ((PAPER_SIZES_getitem "remarkable2").1)
    with (Ok (mkPaperSize "180mm" "250mm" "reMarkable2")).
  unfold bind at 1. unfold pure_call at 1.
  unfold bind at 1. unfold pure_call at 1. rewrite render_figure.
  unfold bind at 1. unfold pure_call at 1.
  reflexivity.
Qed.

Lemma process_testdata2 (output_file : string) (w : World) :
  process_document E template testdata2 output_file w
  = render_latex E testdata2_markup output_file w.
Proof.
  unfold process_document, compose, partial_first, partial_filename,
    render_template_call, bind at 1, pure_call.
  by rewrite render_testdata2.
Qed.

Lemma render_latex_phone (tex : string) (w : World) :
  render_latex E tex "test-phone.pdf" w = run_latex E tex "test-phone.pdf" w.
Proof. reflexivity. Qed.

Lemma render_latex_remarkable (tex : string) (w : World) :
  render_latex E tex "test-remarkable.pdf" w
  = run_latex E tex "test-remarkable.pdf" w.
Proof. reflexivity. Qed.

(** C10.  Importing the module runs [process_document] twice, both times
    with [testdata2], first for [test-phone.pdf] and then for
    [test-remarkable.pdf].  The import creates at most two child
    processes and changes no file other than these two.  When the engine
    leaves a document in the first run and again in the second, which
    starts in the world the first left, and both renames are permitted,
    the import returns, two child processes have run, and each file holds
    the document of its run. *)
Theorem C10_import_runs_two_documents (w : World) :
  let w' := (module_body E w).2 in
  (module_body E w
   = (let* _ := process_document E template testdata2 "test-phone.pdf" in
      process_document E template testdata2 "test-remarkable.pdf") w
   ∧ (children w' ≤ children w + 2)%nat
   ∧ (∀ p, p ≠ "test-phone.pdf" → p ≠ "test-remarkable.pdf" →
           files w' !! p = files w !! p)
   ∧ (∀ cp1 pdf1 cp2 pdf2,
        engine_run E testdata2_markup w = Some cp1 →
        returncode cp1 = 0%Z →
        cwd_after cp1 !! "input.pdf" = Some pdf1 →
        rename_permitted E "test-phone.pdf" = true →
        engine_run E testdata2_markup
          (set_files (insert "test-phone.pdf" pdf1) (count_child w))
        = Some cp2 →
        returncode cp2 = 0%Z →
        cwd_after cp2 !! "input.pdf" = Some pdf2 →
        rename_permitted E "test-remarkable.pdf" = true →
        (module_body E w).1 = Ok tt
        ∧ children w' = (children w + 2)%nat
        ∧ files w' !! "test-phone.pdf" = Some pdf1
        ∧ files w' !! "test-remarkable.pdf" = Some pdf2)).
Proof.
  intros w'. subst w'. rewrite module_body_calls.
  split; [done|].
  unfold bind. rewrite process_testdata2, render_latex_phone.
  pose proof (run_latex_frame E testdata2_markup "test-phone.pdf" w)
    as (Ht1 & Hf1 & Hc1).
  split_and!.
  - destruct (run_latex E testdata2_markup "test-phone.pdf" w)
      as [[[]|e] w1]; simpl in *; [|lia].
    rewrite process_testdata2, render_latex_remarkable.
    pose proof (run_latex_frame E testdata2_markup "test-remarkable.pdf" w1)
      as (_ & _ & Hc2). simpl in Hc2. lia.
  - intros p Hp1 Hp2.
    destruct (run_latex E testdata2_markup "test-phone.pdf" w)
      as [[[]|e] w1]; simpl in *; [|by apply Hf1].
    rewrite process_testdata2, render_latex_remarkable.
    pose proof (run_latex_frame E testdata2_markup "test-remarkable.pdf" w1)
      as (_ & Hf2 & _). simpl in Hf2. rewrite Hf2 by done. by apply Hf1.
  - intros cp1 pdf1 cp2 pdf2 Hrun1 Hrc1 Hpdf1 Hperm1 Hrun2 Hrc2 Hpdf2 Hperm2.
    rewrite run_latex_cases, Hrun1, Hrc1, Hpdf1, Hperm1.
    change (0 =? 0)%Z with true. cbv beta iota.
    rewrite process_testdata2, render_latex_remarkable, run_latex_cases.
    rewrite Hrun2, Hrc2, Hpdf2, Hperm2.
    change (0 =? 0)%Z with true. cbv beta iota. simpl.
    split_and!; [done|lia| |].
    + rewrite lookup_insert_ne by done. apply lookup_insert_eq.
    + apply lookup_insert_eq.
Qed.

End At_import.

(** ** Concrete runs *)

(** The normalization of the file name on some inputs. *)
Example output_path_examples :
  (λ f, match pathlib.with_suffix (pathlib.Path f) ".pdf" with
        | Ok p => Some (pathlib.str p)
        | Raise _ => None
        end)
  <$> ["report.tex"; "report"; "out//./a.tar.gz"; "/abs/doc.PDF"; ".hidden";
       "notes."; ""; "/"; "."]
  = [Some "report.pdf"; Some "report.pdf"; Some "out/a.tar.pdf";
     Some "/abs/doc.pdf"; Some ".hidden.pdf"; Some "notes..pdf"; None; None;
     None].
Proof. vm_compute. reflexivity. Qed.

Example is_dimension_examples :
  is_dimension <$> ["210mm"; "8.5in"; "3mm"; ""; "mm"; "12"; "1.2.3mm"; ".mm";
                    "5 mm"]
  = [true; true; true; false; false; false; false; false; false].
Proof. vm_compute. reflexivity. Qed.

(** The first scenario of the specification: the markup for the a4 data. *)
Example render_a4 :
  render_template env_ok template data_a4
  = Ok "
\documentclass{article}
\usepackage[paperwidth={ 210mm },
            paperheight={ 297mm },
            margin={ 2cm }]{geometry}

\usepackage{tikz}
\usepackage{pgfplots}
\pgfplotsset{compat=1.18} % or whatever recent version you have
\usepackage{float} % for the [h] placement specifier

\begin{document}
\section{ T }
Hello
\end{document}".
Proof. vm_compute. reflexivity. Qed.

(** The exits of [run_latex]: a document, a failing engine with the
    debugger resumed or quit, no engine, and a refused rename.  In each
    the temporary directories are as before. *)
Example run_latex_exits :
  run_latex env_ok "x" "out.pdf" world_with_old_output
  = (Ok tt, mkWorld {["out.pdf" := "%PDF-1.5"]} ∅ 1 0)
  ∧ run_latex env_failing "x" "out.pdf" world_with_old_output
    = (Raise (CalledProcessError 1 "! Emergency stop." ""),
       mkWorld {["out.pdf" := "old"]} ∅ 1 1)
  ∧ run_latex env_quit "x" "out.pdf" world_with_old_output
    = (Raise BdbQuit, mkWorld {["out.pdf" := "old"]} ∅ 1 1)
  ∧ run_latex env_absent "x" "out.pdf" world_with_old_output
    = (Raise FileNotFoundError, world_with_old_output)
  ∧ run_latex env_readonly "x" "out.pdf" world_with_old_output
    = (Raise OSError, mkWorld {["out.pdf" := "old"]} ∅ 1 0).
Proof. vm_compute. done. Qed.

(** C1 as the specification has it fails: the template refers to
    [content2], the data has no such key, and yet [render_template]
    returns markup, with nothing in the place of the field, and
    [process_document] goes on to start the engine. *)
Lemma C1_plain_missing_reference_renders :
  references template_content2 "content2"
  ∧ data_title_only !! "content2" = None
  ∧ render_template env_ok template_content2 data_title_only
    = Ok "\section{ T }
"
  ∧ process_document env_ok template_content2 data_title_only "out.pdf"
      empty_world
    = (Ok tt, mkWorld {["out.pdf" := "%PDF-1.5"]} ∅ 1 0).
Proof.
  split_and!.
  - left. unfold template_content2; simpl. set_solver.
  - reflexivity.
  - vm_compute. reflexivity.
  - vm_compute. reflexivity.
Qed.

Lemma C1_missing_attribute_base_fails_witness :
  ∃ e, render_template env_ok template_pagesize data_title_only = Raise e
    ∧ process_document env_ok template_pagesize data_title_only "out.pdf"
        empty_world = (Raise e, empty_world)
    ∧ children (process_document env_ok template_pagesize data_title_only
                  "out.pdf" empty_world).2 = children empty_world
    ∧ ("self" ∉ dom data_title_only →
       ∃ k, e = UndefinedError k ∧ accesses_attribute template_pagesize k
            ∧ data_title_only !! k = None)
    ∧ (∀ m, data_title_only !! m = None → jinja_own m = false →
            render_node env_ok data_title_only (Name m) = Ok EmptyString).
Proof.
  apply (C1_missing_attribute_base_fails env_ok template_pagesize
           data_title_only "out.pdf" empty_world "pagesize").
  - exists f_width. unfold template_pagesize; simpl. set_solver.
  - reflexivity.
  - vm_compute. reflexivity.
Defined.

(** C2 as the specification has it fails: the engine exits with status
    zero and leaves no [input.pdf], and [run_latex] and [render_latex]
    return without raising. *)
Lemma C2_silent_engine_is_success :
  (∃ cp, engine_run env_silent "x" empty_world = Some cp
         ∧ returncode cp = 0%Z ∧ cwd_after cp !! "input.pdf" = None)
  ∧ run_latex env_silent "x" "out.pdf" empty_world
    = (Ok tt, mkWorld ∅ ∅ 1 0)
  ∧ render_latex env_silent "x" "out.pdf" empty_world
    = (Ok tt, mkWorld ∅ ∅ 1 0).
Proof.
  split_and!.
  - eexists. split_and!; vm_compute; reflexivity.
  - vm_compute. reflexivity.
  - vm_compute. reflexivity.
Qed.

Lemma C2_zero_exit_without_pdf_returns_witness :
  run_latex env_silent "x" "out.pdf" world_with_old_output
  = (Ok tt, count_child world_with_old_output)
  ∧ files (count_child world_with_old_output) = files world_with_old_output
  ∧ tmpdirs (count_child world_with_old_output)
    = tmpdirs world_with_old_output.
Proof.
  eapply (C2_zero_exit_without_pdf_returns env_silent "x" "out.pdf"
            world_with_old_output).
  - vm_compute. reflexivity.
  - reflexivity.
  - vm_compute. reflexivity.
Defined.

(** C3 as the specification has it fails: the engine exits with status
    1, the debugger entered by [breakpoint()] is quit, and what reaches the
    caller is [BdbQuit], not the [CalledProcessError] of the engine.  The
    file at the output path is as before. *)
Lemma C3_debugger_quit_replaces_error :
  (∃ cp, engine_run env_quit "x" world_with_old_output = Some cp
         ∧ returncode cp = 1%Z)
  ∧ run_latex env_quit "x" "out.pdf" world_with_old_output
    = (Raise BdbQuit, mkWorld {["out.pdf" := "old"]} ∅ 1 1)
  ∧ is_CalledProcessError BdbQuit = false.
Proof.
  split_and!.
  - eexists. split; vm_compute; reflexivity.
  - vm_compute. reflexivity.
  - reflexivity.
Qed.

Lemma C3_nonzero_exit_raises_witness :
  ∃ e w',
    run_latex env_failing "x" "out.pdf" world_with_old_output = (Raise e, w')
    ∧ files w' = files world_with_old_output
    ∧ files w' !! "out.pdf" = files world_with_old_output !! "out.pdf"
    ∧ (breakpointhook env_failing = None →
       e = CalledProcessError 1 "! Emergency stop." "")
    ∧ (∀ e', breakpointhook env_failing = Some e' → e = e').
Proof.
  eapply (C3_nonzero_exit_raises env_failing "x" "out.pdf"
            world_with_old_output
            (mkCompleted 1 "! Emergency stop." ""
               (<["input.log" := "! Emergency stop."]> {["input.tex" := "x"]}))).
  - vm_compute. reflexivity.
  - simpl. lia.
Defined.

Lemma C7_lookup_of_page_size_witness :
  (∃ e, PAPER_SIZES_getitem "a0" = (Raise e, PAPER_SIZES)
        ∧ e = KeyError "a0" ∧ is_LookupError e = true)
  ∧ PAPER_SIZES_getitem "letter"
    = (Ok (mkPaperSize "8.5in" "11in" "US Letter"), PAPER_SIZES).
Proof.
  split.
  - apply (C7_lookup_of_page_size "a0").
    apply not_elem_of_dom. reflexivity.
  - apply (C7_lookup_of_page_size "letter"). reflexivity.
Defined.

Lemma C9_render_is_pure_and_deterministic_witness :
  ∃ r : result string,
    render_template_call env_ok template data_a4 empty_world
    = (r, empty_world)
    ∧ render_template_call env_other_process template data_a4
        world_with_old_output = (r, world_with_old_output)
    ∧ ("self" ∉ dom data_a4 → ∃ markup, r = Ok markup).
Proof.
  apply (C9_render_is_pure_and_deterministic env_ok
           (jinja_own_str env_other_process) (spawn env_other_process)
           (rename_permitted env_other_process)
           (breakpointhook env_other_process)
           (random_name env_other_process)
           template data_a4 empty_world world_with_old_output).
  intros n [Hn|[a Hn]]; unfold template in Hn; simpl in Hn;
    repeat (apply elem_of_cons in Hn as [Hn|Hn];
            [first [discriminate Hn | injection Hn as ->; by eexists]|]);
    by apply elem_of_nil in Hn.
Defined.

Lemma C10_import_runs_two_documents_witness :
  (module_body env_ok empty_world).1 = Ok tt
  ∧ children (module_body env_ok empty_world).2 = 2%nat
  ∧ files (module_body env_ok empty_world).2 !! "test-phone.pdf"
    = Some "%PDF-1.5"
  ∧ files (module_body env_ok empty_world).2 !! "test-remarkable.pdf"
    = Some "%PDF-1.5".
Proof.
  pose proof (C10_import_runs_two_documents env_ok empty_world) as H.
  destruct H as (_ & _ & _ & H).
  eapply H.
  - vm_compute. reflexivity.
  - reflexivity.
  - vm_compute. reflexivity.
  - reflexivity.
  - vm_compute. reflexivity.
  - reflexivity.
  - vm_compute. reflexivity.
  - reflexivity.
Defined.

(** * Further properties of the code *)

(** ** Rendering (lines 27-28 and the document template) *)

Section Rendering_more.
Context (E : Env).

Lemma render_nodes_agree (d d' : gmap string value) (nds : list node) :
  (∀ n, (Name n ∈ nds ∨ ∃ a, Getattr n a ∈ nds) → d !! n = d' !! n) →
  render_nodes E d nds = render_nodes E d' nds.
Proof.
  induction nds as [|nd nds IH]; intros Hagree; [done|].
  simpl. rewrite IH.
  2:{ intros n [Hn|[a Hn]]; apply Hagree;
        [left|right; exists a]; by apply list_elem_of_further. }
  assert (render_node E d nd = render_node E d' nd) as ->; [|done].
  destruct nd as [s|n|n a]; simpl; [done| |].
  - rewrite (Hagree n); [done|]. left. apply list_elem_of_here.
  - rewrite (Hagree n); [done|]. right. exists a. apply list_elem_of_here.
Qed.

(** The rendering looks only at the fields the template refers to: two
    data mappings that agree on them (and on whether they have the key
    [self]) give the same result, markup or exception.  Keys the template
    does not use are ignored. *)
Theorem render_template_ignores_unused_keys
    (t : Template) (d d' : gmap string value) :
  (∀ n, references t n → d !! n = d' !! n) →
  ("self" ∈ dom d ↔ "self" ∈ dom d') →
  render_template E t d = render_template E t d'.
Proof.
  intros Hagree Hself. unfold render_template, Template_render.
  rewrite (render_nodes_agree d d' (body t)) by done.
  case_bool_decide as H1; case_bool_decide as H2; try done; tauto.
Qed.

(** With a [PaperSize] under [pagesize] and strings under [margin],
    [title] and [content], the document template gives the text of lines
    113-128 with the width, the height, the margin, the title and the
    content in their places, whatever else the data holds. *)
Theorem render_document_template
    (d : gmap string value) (pagesize : PaperSize)
    (margin title content : string) :
  d !! "pagesize" = Some (VPaperSize pagesize) →
  d !! "margin" = Some (VStr margin) →
  d !! "title" = Some (VStr title) →
  d !! "content" = Some (VStr content) →
  "self" ∉ dom d →
  render_template E template d
  = Ok (document_markup pagesize margin title content).
Proof.
  intros Hp Hm Ht Hc Hself. unfold render_template, Template_render.
  rewrite bool_decide_eq_false_2 by done.
  unfold template, body. simpl. rewrite Hp, Hm, Ht, Hc. simpl.
  reflexivity.
Qed.

(** Of the five expressions of the document template only those on
    [pagesize] can fail.  Without a key [pagesize] the rendering raises
    [UndefinedError] for [pagesize], whatever else is present; with such a
    key it returns markup, even when [margin], [title] and [content] are
    all absent. *)
Theorem document_template_needs_only_pagesize (d : gmap string value) :
  "self" ∉ dom d →
  (d !! "pagesize" = None →
   render_template E template d = Raise (UndefinedError "pagesize"))
  ∧ (is_Some (d !! "pagesize") →
     ∃ markup, render_template E template d = Ok markup).
Proof.
  intros Hself. unfold render_template, Template_render.
  rewrite bool_decide_eq_false_2 by done. split.
  - intros Hp. unfold template, body. simpl. by rewrite Hp.
  - intros Hp. apply render_nodes_defined. intros n a Hn.
    unfold template, body in Hn.
    repeat (apply elem_of_cons in Hn as [Hn|Hn];
            [first [discriminate Hn | by injection Hn as -> _]|]).
    by apply elem_of_nil in Hn.
Qed.

End Rendering_more.

(** ** The output path (line 50) *)

Module pathlib_more.
Import pathlib pathlib_facts.

Lemma append_nil_r (s : string) : s +:+ EmptyString = s.
Proof.
  induction s as [|x s IH]; [done|]. by rewrite append_cons, IH.
Qed.

Lemma take_str_append (s t : string) : take_str (String.length s) (s +:+ t) = s.
Proof.
  induction s as [|x s IH]; [by destruct t|].
  rewrite append_cons. simpl. by rewrite IH.
Qed.

Lemma take_drop_str (i : nat) (s : string) : take_str i s +:+ drop_str i s = s.
Proof.
  revert s. induction i as [|i IH]; intros [|x s]; simpl; try done.
  by rewrite append_cons, IH.
Qed.

Lemma contains_append (c : ascii) (s t : string) :
  contains c (s +:+ t) = contains c s || contains c t.
Proof.
  induction s as [|x s IH]; [done|].
  rewrite append_cons. simpl. rewrite IH. by destruct (Ascii.eqb x c).
Qed.

Lemma contains_take_str (c : ascii) (i : nat) (s : string) :
  contains c s = false → contains c (take_str i s) = false.
Proof.
  revert s. induction i as [|i IH]; intros [|x s]; simpl; try done.
  intros [Hx Hs]%orb_false_iff. rewrite Hx. simpl. by apply IH.
Qed.

(** A name is its stem followed by its suffix. *)
Lemma stem_suffix (nm : string) : path_stem nm +:+ suffix_of nm = nm.
Proof.
  unfold path_stem. case_bool_decide as Hs.
  - rewrite Hs. apply append_nil_r.
  - revert Hs. unfold suffix_of.
    pose proof (rfind_lt "." nm) as Hlt.
    destruct (Z.ltb_spec 0 (rfind "." nm)) as [Hpos|]; simpl; [|done].
    destruct (Z.ltb_spec (rfind "." nm) (Z.of_nat (String.length nm) - 1));
      simpl; [|done].
    intros _. rewrite length_drop_str.
    replace (String.length nm - (String.length nm - Z.to_nat (rfind "." nm)))%nat
      with (Z.to_nat (rfind "." nm)) by lia.
    apply take_drop_str.
Qed.

Lemma stem_nonempty' (nm : string) :
  nm ≠ EmptyString → path_stem nm ≠ EmptyString.
Proof.
  intros Hnm. unfold path_stem. case_bool_decide; [done|].
  by apply stem_nonempty.
Qed.

Lemma contains_stem (nm : string) :
  contains sep nm = false → contains sep (path_stem nm) = false.
Proof.
  intros Hnm. unfold path_stem. case_bool_decide; [done|].
  by apply contains_take_str.
Qed.

(** What [with_suffix] returns, exactly: the last component becomes its
    stem followed by [.pdf]. *)
Lemma with_suffix_pdf_exact (p p' : PurePath) :
  with_suffix p ".pdf" = Ok p' →
  name p ≠ EmptyString
  ∧ p' = mkPath (root p)
           (removelast (parts p) ++ [path_stem (name p) +:+ ".pdf"]).
Proof.
  unfold with_suffix. simpl.
  case_bool_decide as Hname; [done|].
  intros [= <-]. split; [done|].
  unfold suffix, path_stem. by case_bool_decide.
Qed.

Lemma parts_snoc (p : PurePath) :
  name p ≠ EmptyString → parts p = (removelast (parts p) ++ [name p])%list.
Proof.
  unfold name. intros Hname.
  apply app_removelast_last. by intros Hnil; rewrite Hnil in Hname.
Qed.

Lemma join_cons (x y : string) (l : list string) :
  join sep (x :: y :: l) = x +:+ String sep (join sep (y :: l)).
Proof. reflexivity. Qed.

(** The string of a path is a prefix, fixed by the root and the leading
    components, followed by the last component. *)
Lemma str_snoc_uniform (r : string) (l : list string) :
  ∃ pre, ∀ x, x ≠ EmptyString → str (mkPath r (l ++ [x])) = pre +:+ x.
Proof.
  assert (∃ pre, ∀ x, join sep (l ++ [x]) = pre +:+ x) as [pre Hpre].
  { induction l as [|y l [pre IH]].
    - by exists EmptyString.
    - exists (y +:+ String sep pre). intros x.
      simpl app. destruct (l ++ [x])%list as [|z l'] eqn:Hl;
        [by destruct l|].
      rewrite join_cons, <-Hl, IH. by rewrite append_assoc, append_cons. }
  exists (r +:+ pre). intros x Hx. unfold str; simpl. rewrite Hpre.
  case_bool_decide as Hempty.
  - apply append_nil_inv in Hempty. by apply append_nil_inv in Hempty.
  - by rewrite append_assoc.
Qed.

(** *** Parsing the string of a path gives the path back *)

Lemma split_no_contains (c : ascii) (x : string) :
  contains c x = false → split c x = [x].
Proof.
  induction x as [|a x IH]; simpl; [done|].
  intros [Ha Hx]%orb_false_iff. rewrite Ha, IH; done.
Qed.

Lemma split_append_sep (c : ascii) (x s : string) :
  contains c x = false → split c (x +:+ String c s) = x :: split c s.
Proof.
  induction x as [|a x IH]; intros Hx.
  - rewrite append_nil_l. simpl. by rewrite Ascii.eqb_refl.
  - simpl in Hx. apply orb_false_iff in Hx as [Ha Hx].
    rewrite append_cons. simpl. by rewrite Ha, IH.
Qed.

Lemma split_join (l : list string) :
  l ≠ [] → Forall (λ x, contains sep x = false) l →
  split sep (join sep l) = l.
Proof.
  induction l as [|x [|y l] IH]; intros Hnil Hall; [done| |].
  - simpl. apply split_no_contains. by inversion Hall.
  - rewrite join_cons. inversion Hall; subst.
    rewrite split_append_sep by done. by rewrite IH.
Qed.

Lemma split_pieces (c : ascii) (s : string) :
  Forall (λ x, contains c x = false) (split c s).
Proof.
  induction s as [|a s IH]; simpl; [by repeat constructor|].
  destruct (Ascii.eqb a c) eqn:Ha; [by constructor|].
  destruct (split c s) as [|piece pieces].
  { constructor; [|constructor]. simpl. by rewrite Ha. }
  inversion IH; subst. constructor; [|done]. simpl. by rewrite Ha.
Qed.

Lemma filter_all {A} (P : A → Prop) `{∀ x, Decision (P x)} (l : list A) :
  Forall P l → filter P l = l.
Proof.
  induction 1 as [|x l Hx _ IH]; [done|].
  rewrite filter_cons_True by done. by rewrite IH.
Qed.

Lemma startswith_join (x : string) (l : list string) :
  x ≠ EmptyString → contains sep x = false →
  startswith sep (join sep (x :: l)) = false.
Proof.
  intros Hx Hc. destruct x as [|a x]; [done|].
  simpl in Hc. apply orb_false_iff in Hc as [Ha _].
  destruct l; [done|]. by rewrite join_cons, append_cons.
Qed.

Lemma lstrip_id (c : ascii) (s : string) :
  startswith c s = false → lstrip c s = s.
Proof. destruct s as [|a s]; simpl; [done|]. by intros ->. Qed.

(** Every path that [Path] builds is well formed. *)
Lemma Path_wf (filename : string) : wf_path (Path filename).
Proof.
  unfold Path, splitroot.
  destruct (startswith sep filename).
  - destruct (_ =? 2)%nat; (split; [set_solver|]); simpl;
      apply Forall_forall; intros x [[? ?] Hin]%list_elem_of_filter;
      (split_and!; [done..|]);
      by eapply (proj1 (Forall_forall _ _) (split_pieces sep _)).
  - split; [set_solver|]. simpl.
    apply Forall_forall; intros x [[? ?] Hin]%list_elem_of_filter.
    split_and!; [done..|].
    by eapply (proj1 (Forall_forall _ _) (split_pieces sep _)).
Qed.

(** [with_suffix] keeps a path well formed. *)
Lemma with_suffix_wf (p p' : PurePath) :
  wf_path p → with_suffix p ".pdf" = Ok p' → wf_path p'.
Proof.
  intros [Hroot Hparts] [Hname ->]%with_suffix_pdf_exact.
  split; [done|]. simpl.
  rewrite (parts_snoc p Hname) in Hparts.
  apply Forall_app in Hparts as [Hinit Hlast].
  apply Forall_app. split; [done|].
  apply Forall_singleton. apply Forall_singleton in Hlast as (_ & _ & Hc).
  split_and!.
  - intros Hnil. by apply append_nil_inv in Hnil.
  - intros Hdot. apply (f_equal String.length) in Hdot.
    rewrite length_append in Hdot. simpl in Hdot. lia.
  - rewrite contains_append, contains_stem by done. done.
Qed.

(** Round trip: a well-formed path with at least one component is what
    [Path] reads from its string. *)
Lemma Path_str (p : PurePath) :
  wf_path p → parts p ≠ [] → Path (str p) = p.
Proof.
  destruct p as [r l]. intros [Hroot Hparts] Hnil. simpl in *.
  destruct l as [|x l]; [done|].
  pose proof Hparts as Hparts'.
  apply Forall_cons in Hparts' as [(Hx & _ & Hcx) _].
  pose proof (startswith_join x l Hx Hcx) as Hstart.
  assert (join sep (x :: l) ≠ EmptyString) as Hjoin.
  { destruct x as [|a x]; [done|]. destruct l; [done|].
    by rewrite join_cons, append_cons. }
  assert (filter (λ y, y ≠ EmptyString ∧ y ≠ ".")
            (split sep (join sep (x :: l))) = x :: l) as Hsplit.
  { rewrite split_join; [|done|].
    - apply filter_all. eapply Forall_impl; [exact Hparts|].
      by intros y (? & ? & _).
    - eapply Forall_impl; [exact Hparts|]. by intros y (_ & _ & ?). }
  clear Hparts Hx Hcx Hnil. unfold str. cbn [root parts].
  remember (join sep (x :: l)) as j eqn:Hj. clear Hj.
  unfold Path, splitroot.
  repeat (apply elem_of_cons in Hroot as [->|Hroot]).
  - rewrite append_nil_l, (bool_decide_eq_false_2 (j = EmptyString)) by done.
    by rewrite Hstart, Hsplit.
  - change ("/" +:+ j) with (String sep j).
    rewrite bool_decide_eq_false_2 by done.
    cbn [startswith lstrip]. rewrite Ascii.eqb_refl, lstrip_id by done.
    cbn [String.length].
    replace (S _ - _ =? 2)%nat with false
      by (symmetry; apply Nat.eqb_neq; lia).
    by rewrite Hsplit.
  - change ("//" +:+ j) with (String sep (String sep j)).
    rewrite bool_decide_eq_false_2 by done.
    cbn [startswith lstrip]. rewrite !Ascii.eqb_refl, lstrip_id by done.
    cbn [String.length].
    replace (S (S _) - _ =? 2)%nat with true
      by (symmetry; apply Nat.eqb_eq; lia).
    by rewrite Hsplit.
  - by apply elem_of_nil in Hroot.
Qed.

End pathlib_more.

Module output_path.
Import pathlib pathlib_facts pathlib_more.

Lemma Path_parts (filename : string) :
  parts (Path filename)
  = filter (λ x, x ≠ EmptyString ∧ x ≠ ".") (split sep (lstrip sep filename)).
Proof.
  unfold Path, splitroot.
  destruct (startswith sep filename) eqn:Hs.
  - by destruct (_ =? 2)%nat.
  - by rewrite lstrip_id.
Qed.

Lemma split_lstrip (Q : string → Prop) (s : string) :
  Q EmptyString →
  Forall Q (split sep (lstrip sep s)) ↔ Forall Q (split sep s).
Proof.
  intros HQ. induction s as [|a s IH]; [done|].
  simpl. destruct (Ascii.eqb a sep) eqn:Ha; [|by simpl; rewrite Ha].
  rewrite IH, Forall_cons. tauto.
Qed.

Lemma filter_nil_iff (l : list string) :
  filter (λ x, x ≠ EmptyString ∧ x ≠ ".") l = []
  ↔ Forall (λ x, x = EmptyString ∨ x = ".") l.
Proof.
  induction l as [|x l IH]; [by split; [constructor|]|].
  rewrite Forall_cons, <-IH.
  destruct (decide (x ≠ EmptyString ∧ x ≠ ".")) as [Hx|Hx].
  - rewrite filter_cons_True by done. split; [done|]. intros [[?|?] _]; tauto.
  - rewrite filter_cons_False by done. split; [|tauto].
    intros Hl. split; [|done].
    destruct (decide (x = EmptyString)); [tauto|].
    destruct (decide (x = ".")); tauto.
Qed.

(** A path has no name exactly when the file name has nothing between
    its slashes but single dots. *)
Lemma name_empty_iff (filename : string) :
  name (Path filename) = EmptyString
  ↔ Forall (λ x, x = EmptyString ∨ x = ".") (split sep filename).
Proof.
  rewrite <-(split_lstrip _ filename) by tauto.
  rewrite <-filter_nil_iff, <-Path_parts.
  split.
  - intros Hname. destruct (parts (Path filename)) as [|x l] eqn:Hp; [done|].
    exfalso. destruct (Path_wf filename) as [_ Hwf].
    assert (parts (Path filename) ≠ []) as Hnil by (by rewrite Hp).
    apply (app_removelast_last EmptyString) in Hnil.
    fold (name (Path filename)) in Hnil. rewrite Hname in Hnil.
    rewrite Hnil in Hwf. apply Forall_app in Hwf as [_ Hlast].
    by apply Forall_singleton in Hlast as [? _].
  - intros Hp. unfold name. by rewrite Hp.
Qed.

End output_path.

Section Output_path.
Context (E : Env).

(** A file name with nothing in it but slashes and single dots (the
    empty string, [/], [.], [./], [//] ...) names no file: [render_latex]
    raises [ValueError] and nothing has happened, no directory was made and
    no engine started.  Every other file name reaches [run_latex]. *)
Theorem render_latex_without_file_name
    (tex filename : string) (w : World) :
  (Forall (λ x, x = EmptyString ∨ x = ".")
     (pathlib.split pathlib.sep filename) →
   render_latex E tex filename w = (Raise ValueError, w))
  ∧ (¬ Forall (λ x, x = EmptyString ∨ x = ".")
         (pathlib.split pathlib.sep filename) →
     ∃ p, pathlib.with_suffix (pathlib.Path filename) ".pdf" = Ok p
          ∧ render_latex E tex filename w
            = run_latex E tex (pathlib.str p) w).
Proof.
  rewrite <-output_path.name_empty_iff. split.
  - intros Hname. unfold render_latex, bind, pure_call, pathlib.with_suffix.
    simpl. by rewrite bool_decide_eq_true_2.
  - intros Hname.
    destruct (pathlib_facts.with_suffix_pdf_total _ Hname) as [p Hp].
    exists p. split; [done|].
    unfold render_latex, bind, pure_call. by rewrite Hp.
Qed.

(** The output path is the caller's path with the suffix of its last
    component replaced by [.pdf], or with [.pdf] added when there is none:
    the two strings share everything before the suffix, and the root and
    the directories are the same. *)
Theorem output_path_replaces_suffix
    (filename : string) (p' : pathlib.PurePath) :
  pathlib.with_suffix (pathlib.Path filename) ".pdf" = Ok p' →
  ∃ base,
    pathlib.str (pathlib.Path filename)
    = base +:+ pathlib.suffix (pathlib.Path filename)
    ∧ pathlib.str p' = base +:+ ".pdf"
    ∧ pathlib.root p' = pathlib.root (pathlib.Path filename)
    ∧ removelast (pathlib.parts p')
      = removelast (pathlib.parts (pathlib.Path filename)).
Proof.
  intros [Hname ->]%pathlib_more.with_suffix_pdf_exact.
  set (p := pathlib.Path filename) in *.
  destruct (pathlib_more.str_snoc_uniform (pathlib.root p)
              (removelast (pathlib.parts p))) as [pre Hpre].
  exists (pre +:+ path_stem (pathlib.name p)). split_and!.
  - rewrite pathlib_facts.append_assoc. unfold pathlib.suffix.
    rewrite pathlib_more.stem_suffix, <-Hpre by done.
    destruct p as [r l]. f_equal. simpl. f_equal.
    by apply (pathlib_more.parts_snoc (pathlib.mkPath r l)).
  - rewrite Hpre, pathlib_facts.append_assoc; [done|].
    intros Hnil. by apply pathlib_facts.append_nil_inv in Hnil.
  - done.
  - simpl. apply removelast_last.
Qed.

(** Normalizing twice is normalizing once: the output path read back
    from its string is the same path, [with_suffix] leaves it as it is, and
    [render_latex] called with the output path does what it does with the
    caller's file name. *)
Theorem output_path_idempotent
    (tex filename : string) (p' : pathlib.PurePath) (w : World) :
  pathlib.with_suffix (pathlib.Path filename) ".pdf" = Ok p' →
  pathlib.Path (pathlib.str p') = p'
  ∧ pathlib.with_suffix p' ".pdf" = Ok p'
  ∧ render_latex E tex (pathlib.str p') w = render_latex E tex filename w.
Proof.
  intros Hp.
  assert (pathlib.Path (pathlib.str p') = p') as Hround.
  { apply pathlib_more.Path_str.
    - eapply pathlib_more.with_suffix_wf; [apply pathlib_more.Path_wf|done].
    - apply pathlib_more.with_suffix_pdf_exact in Hp as [_ ->]. simpl.
      by destruct (removelast _). }
  assert (pathlib.with_suffix p' ".pdf" = Ok p') as Hidem.
  { pose proof Hp as [Hname ->]%pathlib_more.with_suffix_pdf_exact.
    unfold pathlib.with_suffix. simpl.
    rewrite pathlib_facts.name_snoc.
    rewrite bool_decide_eq_false_2
      by (intros Hnil; by apply pathlib_facts.append_nil_inv in Hnil).
    unfold pathlib.suffix. rewrite pathlib_facts.name_snoc.
    rewrite pathlib_facts.suffix_of_pdf
      by by apply pathlib_more.stem_nonempty'.
    rewrite bool_decide_eq_false_2 by done.
    rewrite removelast_last, pathlib_facts.length_append.
    replace (String.length (path_stem (pathlib.name (pathlib.Path filename)))
             + String.length ".pdf" - String.length ".pdf")%nat
      with (String.length (path_stem (pathlib.name (pathlib.Path filename))))
      by lia.
    by rewrite pathlib_more.take_str_append. }
  split_and!; [done..|].
  unfold render_latex, bind, pure_call. by rewrite Hround, Hidem, Hp.
Qed.

End Output_path.

(** ** The runner (lines 31-46), the combinator and the import *)

Section Runner_more.
Context (E : Env).

(** One call starts the engine once when it can be started and not at
    all otherwise, and it enters the debugger once when the engine exits
    with a status other than zero and in no other case: not for a missing
    engine, not for a refused rename, not for a missing document. *)
Theorem run_latex_counts (tex output_path : string) (w : World) :
  let w' := (run_latex E tex output_path w).2 in
  (children w'
   = children w + match engine_run E tex w with Some _ => 1 | None => 0 end
   ∧ debugger_entries w'
     = debugger_entries w
       + match engine_run E tex w with
         | Some cp => if (returncode cp =? 0)%Z then 0 else 1
         | None => 0
         end)%nat.
Proof.
  rewrite run_latex_cases.
  destruct (engine_run E tex w) as [cp|]; simpl; [|lia].
  destruct (returncode cp =? 0)%Z; simpl; [|lia].
  destruct (cwd_after cp !! "input.pdf"); simpl; [|lia].
  destruct (rename_permitted E output_path); simpl; lia.
Qed.

(** When the engine cannot be started, [run_latex] raises
    [FileNotFoundError] and the world is the one from before the call: the
    handler of line 44 is for [CalledProcessError] only, and the directory
    with [input.tex] is gone. *)
Theorem run_latex_engine_absent (tex output_path : string) (w : World) :
  engine_run E tex w = None →
  run_latex E tex output_path w = (Raise FileNotFoundError, w).
Proof. intros Hrun. by rewrite run_latex_cases, Hrun. Qed.

(** When the engine leaves a document and the rename is permitted,
    [run_latex] returns, and the files are those from before with the
    document at the output path, in the place of any file that was
    there. *)
Theorem run_latex_moves_document
    (tex output_path : string) (w : World) (cp : CompletedProcess)
    (pdf : string) :
  engine_run E tex w = Some cp →
  returncode cp = 0%Z →
  cwd_after cp !! "input.pdf" = Some pdf →
  rename_permitted E output_path = true →
  ∃ w', run_latex E tex output_path w = (Ok tt, w')
        ∧ files w' = <[output_path := pdf]> (files w)
        ∧ tmpdirs w' = tmpdirs w
        ∧ debugger_entries w' = debugger_entries w.
Proof.
  intros Hrun Hrc Hpdf Hperm.
  rewrite run_latex_cases, Hrun, Hrc, Hpdf, Hperm.
  by eexists.
Qed.

(** When the engine leaves a document and the rename is refused,
    [run_latex] raises [OSError] without entering the debugger, the files
    are as before, and the document is gone with the scratch directory. *)
Theorem run_latex_rename_refused
    (tex output_path : string) (w : World) (cp : CompletedProcess)
    (pdf : string) :
  engine_run E tex w = Some cp →
  returncode cp = 0%Z →
  cwd_after cp !! "input.pdf" = Some pdf →
  rename_permitted E output_path = false →
  ∃ w', run_latex E tex output_path w = (Raise OSError, w')
        ∧ files w' = files w
        ∧ tmpdirs w' = tmpdirs w
        ∧ debugger_entries w' = debugger_entries w.
Proof.
  intros Hrun Hrc Hpdf Hperm.
  rewrite run_latex_cases, Hrun, Hrc, Hpdf, Hperm.
  by eexists.
Qed.



(** Importing stops at the first failure: when the call for
    [test-phone.pdf] raises, the import raises the same exception in the
    world that call left, no file has changed, and the call for
    [test-remarkable.pdf] is never made, so at most one child process has
    run. *)
Theorem import_stops_at_first_failure (w w1 : World) (e : Exn) :
  process_document E template testdata2 "test-phone.pdf" w = (Raise e, w1) →
  module_body E w = (Raise e, w1)
  ∧ files w1 = files w
  ∧ (children w1 ≤ children w + 1)%nat.
Proof.
  intros Hfirst. rewrite module_body_calls. unfold bind at 1.
  rewrite Hfirst. split; [done|].
  rewrite process_testdata2, render_latex_phone, run_latex_cases in Hfirst.
  destruct (engine_run E testdata2_markup w) as [cp|];
    [|injection Hfirst as _ <-; split; [done|lia]].
  destruct (returncode cp =? 0)%Z;
    [|injection Hfirst as _ <-; split; [done|simpl; lia]].
  destruct (cwd_after cp !! "input.pdf"); [|discriminate].
  destruct (rename_permitted E "test-phone.pdf"); [discriminate|].
  injection Hfirst as _ <-. split; [done|simpl; lia].
Qed.

End Runner_more.

(** [compose] is associative, an exception of the first function is the
    result and the second function is not called, and a value of the first
    function goes to the second in the world the first left. *)
Theorem compose_laws {A B C D} (f : A → M B) (g : B → M C) (h : C → M D)
    (x : A) (w : World) :
  compose (compose f g) h x w = compose f (compose g h) x w
  ∧ (∀ e w', f x w = (Raise e, w') → compose f g x w = (Raise e, w'))
  ∧ (∀ y w', f x w = (Ok y, w') → compose f g x w = g y w').
Proof.
  unfold compose, bind. split_and!.
  - destruct (f x w) as [[y|e] w']; [|done].
    by destruct (g y w') as [[z|e] w''].
  - by intros e w' ->.
  - by intros y w' ->.
Qed.

(** ** Concrete runs of the further properties *)

Lemma render_template_ignores_unused_keys_witness :
  render_template env_ok template data_a4
  = render_template env_ok template data_a4_with_author.
Proof.
  apply (render_template_ignores_unused_keys env_ok template data_a4
           data_a4_with_author).
  - intros n [Hn|[a Hn]]; unfold template in Hn; simpl in Hn;
      repeat (apply elem_of_cons in Hn as [Hn|Hn];
              [first [discriminate Hn | by injection Hn as ->]|]);
      by apply elem_of_nil in Hn.
  - split; intros Hself; exfalso; revert Hself;
      apply not_elem_of_dom; reflexivity.
Defined.

Lemma render_document_template_witness :
  render_template env_ok template data_a4
  = Ok (document_markup (mkPaperSize "210mm" "297mm" "A4") "2cm" "T" "Hello").
Proof.
  apply (render_document_template env_ok data_a4); try reflexivity.
  apply not_elem_of_dom. reflexivity.
Defined.

Lemma document_template_needs_only_pagesize_witness :
  render_template env_ok template data_title_only
  = Raise (UndefinedError "pagesize")
  ∧ ∃ markup,
      render_template env_ok template
        {["pagesize" := VPaperSize (mkPaperSize "70mm" "150mm" "phone")]}
      = Ok markup.
Proof.
  split.
  - apply (document_template_needs_only_pagesize env_ok data_title_only).
    + apply not_elem_of_dom. reflexivity.
    + reflexivity.
  - apply (document_template_needs_only_pagesize env_ok
             {["pagesize" := VPaperSize (mkPaperSize "70mm" "150mm" "phone")]}).
    + apply not_elem_of_dom. reflexivity.
    + by eexists.
Defined.

Lemma render_latex_without_file_name_witness :
  render_latex env_ok "x" "./" world_with_old_output
  = (Raise ValueError, world_with_old_output)
  ∧ ∃ p, pathlib.with_suffix (pathlib.Path "report") ".pdf" = Ok p
         ∧ render_latex env_ok "x" "report" world_with_old_output
           = run_latex env_ok "x" (pathlib.str p) world_with_old_output.
Proof.
  split.
  - apply (render_latex_without_file_name env_ok "x" "./"
             world_with_old_output).
    change (pathlib.split pathlib.sep "./") with ["."; EmptyString].
    apply Forall_cons. split; [by right|].
    apply Forall_singleton. by left.
  - apply (render_latex_without_file_name env_ok "x" "report"
             world_with_old_output).
    change (pathlib.split pathlib.sep "report") with ["report"].
    intros [H|H]%Forall_singleton; discriminate H.
Defined.

Lemma output_path_replaces_suffix_witness :
  ∃ base,
    pathlib.str (pathlib.Path "build//report.tex")
    = base +:+ pathlib.suffix (pathlib.Path "build//report.tex")
    ∧ pathlib.str (pathlib.mkPath "" ["build"; "report.pdf"])
      = base +:+ ".pdf"
    ∧ pathlib.root (pathlib.mkPath "" ["build"; "report.pdf"])
      = pathlib.root (pathlib.Path "build//report.tex")
    ∧ removelast (pathlib.parts (pathlib.mkPath "" ["build"; "report.pdf"]))
      = removelast (pathlib.parts (pathlib.Path "build//report.tex")).
Proof.
  apply (output_path_replaces_suffix "build//report.tex"
           (pathlib.mkPath "" ["build"; "report.pdf"])).
  vm_compute. reflexivity.
Defined.

Lemma output_path_idempotent_witness :
  pathlib.Path (pathlib.str (pathlib.mkPath "" ["build"; "report.pdf"]))
  = pathlib.mkPath "" ["build"; "report.pdf"]
  ∧ pathlib.with_suffix (pathlib.mkPath "" ["build"; "report.pdf"]) ".pdf"
    = Ok (pathlib.mkPath "" ["build"; "report.pdf"])
  ∧ render_latex env_ok "x"
      (pathlib.str (pathlib.mkPath "" ["build"; "report.pdf"])) empty_world
    = render_latex env_ok "x" "build//report.tex" empty_world.
Proof.
  apply (output_path_idempotent env_ok "x" "build//report.tex"
           (pathlib.mkPath "" ["build"; "report.pdf"]) empty_world).
  vm_compute. reflexivity.
Defined.

Lemma run_latex_engine_absent_witness :
  run_latex env_absent "x" "out.pdf" world_with_old_output
  = (Raise FileNotFoundError, world_with_old_output).
Proof.
  apply (run_latex_engine_absent env_absent "x" "out.pdf"
           world_with_old_output).
  reflexivity.
Defined.

Lemma run_latex_moves_document_witness :
  ∃ w', run_latex env_ok "x" "out.pdf" world_with_old_output = (Ok tt, w')
        ∧ files w' = <["out.pdf" := "%PDF-1.5"]> (files world_with_old_output)
        ∧ tmpdirs w' = tmpdirs world_with_old_output
        ∧ debugger_entries w' = debugger_entries world_with_old_output.
Proof.
  eapply (run_latex_moves_document env_ok "x" "out.pdf"
            world_with_old_output).
  - vm_compute. reflexivity.
  - reflexivity.
  - vm_compute. reflexivity.
  - reflexivity.
Defined.

Lemma run_latex_rename_refused_witness :
  ∃ w', run_latex env_readonly "x" "out.pdf" world_with_old_output
        = (Raise OSError, w')
        ∧ files w' = files world_with_old_output
        ∧ tmpdirs w' = tmpdirs world_with_old_output
        ∧ debugger_entries w' = debugger_entries world_with_old_output.
Proof.
  eapply (run_latex_rename_refused env_readonly "x" "out.pdf"
            world_with_old_output).
  - vm_compute. reflexivity.
  - reflexivity.
  - vm_compute. reflexivity.
  - reflexivity.
Defined.

Lemma import_stops_at_first_failure_witness :
  module_body env_failing world_with_old_output
  = (Raise (CalledProcessError 1 "! Emergency stop." ""),
     mkWorld {["out.pdf" := "old"]} ∅ 1 1)
  ∧ files (mkWorld {["out.pdf" := "old"]} ∅ 1 1) = files world_with_old_output
  ∧ (children (mkWorld {["out.pdf" := "old"]} ∅ 1 1)
     ≤ children world_with_old_output + 1)%nat.
Proof.
  apply (import_stops_at_first_failure env_failing world_with_old_output).
  vm_compute. reflexivity.
Defined.


(** ** The artifact and the caller's file name *)

Module file_name.
Import pathlib pathlib_facts pathlib_more.

Lemma length_lstrip_le (c : ascii) (s : string) :
  (String.length (lstrip c s) ≤ String.length s)%nat.
Proof.
  induction s as [|a s IH]; simpl; [done|].
  destruct (Ascii.eqb a c); simpl; lia.
Qed.

Lemma count_leading_length (c : ascii) (s : string) :
  (String.length s - String.length (lstrip c s))%nat = count_leading c s.
Proof.
  induction s as [|a s IH]; simpl; [done|].
  pose proof (length_lstrip_le c s).
  destruct (Ascii.eqb a c); simpl; lia.
Qed.

Lemma splitroot_explicit (filename : string) :
  splitroot filename = (leading_root filename, lstrip sep filename).
Proof.
  unfold splitroot, leading_root. rewrite count_leading_length.
  destruct filename as [|a s]; [done|].
  simpl. change "/"%char with sep.
  destruct (Ascii.eqb a sep) eqn:Ha; [|done].
  by destruct (count_leading sep s) as [|[|k]].
Qed.

Lemma filter_split_lstrip (s : string) :
  filter (λ x, x ≠ EmptyString ∧ x ≠ ".") (split sep (lstrip sep s))
  = filter (λ x, x ≠ EmptyString ∧ x ≠ ".") (split sep s).
Proof.
  induction s as [|a s IH]; [done|].
  simpl. destruct (Ascii.eqb a sep) eqn:Ha; [|by simpl; rewrite Ha].
  rewrite filter_cons_False by (intros [? _]; done). done.
Qed.

(** [Path] in terms of the string: its root and its components. *)
Lemma Path_explicit (filename : string) :
  Path filename = mkPath (leading_root filename) (components filename).
Proof.
  unfold Path, components. rewrite splitroot_explicit.
  by rewrite filter_split_lstrip.
Qed.

Lemma rfind_none (c : ascii) (s : string) :
  contains c s = false → rfind c s = (-1)%Z.
Proof.
  induction s as [|a s IH]; simpl; [done|].
  intros [Ha Hs]%orb_false_iff. rewrite IH, Ha; done.
Qed.

(** A name [stem.ext] with a stem, an extension and no dot in the
    extension has the stem [stem]. *)
Lemma path_stem_ext (stem ext : string) :
  stem ≠ EmptyString → ext ≠ EmptyString → contains "." ext = false →
  path_stem (stem +:+ "." +:+ ext) = stem.
Proof.
  intros Hstem Hext Hdot.
  assert (rfind "." ("." +:+ ext) = 0%Z) as Hr.
  { change ("." +:+ ext) with (String "."%char ext). simpl.
    by rewrite rfind_none. }
  assert (suffix_of (stem +:+ "." +:+ ext) = "." +:+ ext) as Hsfx.
  { unfold suffix_of. rewrite rfind_append by (rewrite Hr; lia).
    rewrite Hr, Z.add_0_r, Nat2Z.id, !length_append.
    assert (0 < String.length stem)%nat
      by (destruct stem; simpl; [done|lia]).
    assert (0 < String.length ext)%nat
      by (destruct ext; simpl; [done|lia]).
    change (String.length ".") with 1%nat.
    replace ((0 <? Z.of_nat (String.length stem))%Z) with true
      by (symmetry; apply Z.ltb_lt; lia).
    replace ((Z.of_nat (String.length stem)
              <? Z.of_nat (String.length stem + (1 + String.length ext)) - 1)%Z)
      with true by (symmetry; apply Z.ltb_lt; lia).
    simpl. apply drop_str_append. }
  unfold path_stem. rewrite Hsfx.
  rewrite bool_decide_eq_false_2 by done.
  rewrite length_append.
  replace (String.length stem + String.length ("." +:+ ext)
           - String.length ("." +:+ ext))%nat
    with (String.length stem) by lia.
  apply take_str_append.
Qed.

(** A name without a dot, or whose last dot is its first or its last
    character, has no suffix: the stem is the name. *)
Lemma path_stem_plain (nm : string) :
  contains "." nm = false
  ∨ (∃ rest, nm = "." +:+ rest ∧ contains "." rest = false)
  ∨ (∃ init, nm = init +:+ ".") →
  path_stem nm = nm.
Proof.
  intros Hnm. unfold path_stem.
  rewrite bool_decide_eq_true_2; [done|].
  unfold suffix_of. destruct Hnm as [Hno|[(rest & -> & Hno)|(init & ->)]].
  - by rewrite rfind_none.
  - change ("." +:+ rest) with (String "."%char rest). simpl.
    by rewrite rfind_none.
  - rewrite rfind_append by (vm_compute; discriminate).
    rewrite length_append. change (rfind "." ".") with 0%Z.
    change (String.length ".") with 1%nat.
    replace ((Z.of_nat (String.length init) + 0
              <? Z.of_nat (String.length init + 1) - 1)%Z) with false
      by (symmetry; apply Z.ltb_ge; lia).
    by rewrite andb_false_r.
Qed.

Lemma str_explicit (r : string) (l : list string) (x : string) :
  x ≠ EmptyString → str (mkPath r (l ++ [x])) = path_string r (l ++ [x]).
Proof.
  intros Hx. unfold str, path_string; simpl. change "/"%char with sep.
  case_bool_decide as Hempty; [|done].
  destruct (join_snoc l x) as [pre Hpre]. rewrite Hpre in Hempty.
  apply append_nil_inv in Hempty. by apply append_nil_inv in Hempty.
Qed.

(** What [with_suffix] makes of the caller's file name, in terms of the
    string: the root, the leading components, and the last component with
    its stem and [.pdf]. *)
Lemma output_path_explicit (filename : string) (dirs : list string)
    (nm : string) :
  components filename = (dirs ++ [nm])%list →
  nm ≠ EmptyString
  ∧ ∃ p, with_suffix (Path filename) ".pdf" = Ok p
         ∧ str p = path_string (leading_root filename)
                     (dirs ++ [path_stem nm +:+ ".pdf"]).
Proof.
  intros Hcomps.
  pose proof (Path_wf filename) as [_ Hwf].
  rewrite Path_explicit in *. rewrite Hcomps in *. simpl in Hwf.
  apply Forall_app in Hwf as [_ Hnm].
  apply Forall_singleton in Hnm as [Hnm _]. split; [done|].
  assert (name (mkPath (leading_root filename) (dirs ++ [nm])) = nm)
    as Hname by apply name_snoc.
  destruct (with_suffix_pdf_total
              (mkPath (leading_root filename) (dirs ++ [nm]))) as [p Hp];
    [by rewrite Hname|].
  exists p. split; [done|].
  apply with_suffix_pdf_exact in Hp as [_ ->].
  rewrite Hname. simpl. rewrite removelast_last.
  apply str_explicit. intros Hnil. by apply append_nil_inv in Hnil.
Qed.

End file_name.

Section Artifact_claim.
Context (E : Env).

(** C5, as amended.  Let the engine exit with status zero and leave
    [input.pdf], and let the caller's file name have a last component
    [nm] after the components [dirs] (what is between its slashes, empty
    pieces and single dots left out).  Then there is one output path: the
    root of the file name, [dirs], and [nm] with its suffix replaced by
    [.pdf], that is [stem.pdf] for a name [stem.ext], and [nm.pdf] for a
    name without a dot or whose last dot is its first or last character.
    It ends in [.pdf].  If the rename onto it is permitted, [render_latex]
    returns and the files are those from before with the document at the
    output path; if the rename is refused, [render_latex] raises [OSError]
    and no file has changed. *)
Theorem C5_artifact_written_with_pdf_suffix
    (tex filename : string) (w : World) (cp : CompletedProcess)
    (pdf : string) (dirs : list string) (nm : string) :
  engine_run E tex w = Some cp →
  returncode cp = 0%Z →
  cwd_after cp !! "input.pdf" = Some pdf →
  components filename = (dirs ++ [nm])%list →
  ∃ out : string,
    (∃ pre, out = pre +:+ ".pdf")
    ∧ (∀ stem ext,
         nm = stem +:+ "." +:+ ext →
         stem ≠ EmptyString → ext ≠ EmptyString →
         pathlib.contains "." ext = false →
         out = path_string (leading_root filename)
                 (dirs ++ [stem +:+ ".pdf"]))
    ∧ (pathlib.contains "." nm = false
       ∨ (∃ rest, nm = "." +:+ rest ∧ pathlib.contains "." rest = false)
       ∨ (∃ init, nm = init +:+ ".") →
       out = path_string (leading_root filename) (dirs ++ [nm +:+ ".pdf"]))
    ∧ (rename_permitted E out = true →
       render_latex E tex filename w
       = (Ok tt, set_files (insert out pdf) (count_child w)))
    ∧ (rename_permitted E out = false →
       render_latex E tex filename w = (Raise OSError, count_child w)).
Proof.
  intros Hrun Hrc Hpdf Hcomps.
  destruct (file_name.output_path_explicit filename dirs nm Hcomps)
    as (Hnm & p & Hp & Hstr).
  exists (pathlib.str p). split_and!.
  - rewrite Hstr. unfold path_string.
    destruct (pathlib_facts.join_snoc dirs (path_stem nm +:+ ".pdf"))
      as [pre Hpre]. unfold pathlib.sep in Hpre. rewrite Hpre.
    exists (leading_root filename +:+ pre +:+ path_stem nm).
    by rewrite !pathlib_facts.append_assoc.
  - intros stem ext -> Hstem Hext Hdot.
    by rewrite Hstr, file_name.path_stem_ext.
  - intros Hplain. by rewrite Hstr, file_name.path_stem_plain.
  - intros Hperm. unfold render_latex, bind, pure_call. rewrite Hp.
    by rewrite run_latex_cases, Hrun, Hrc, Hpdf, Hperm.
  - intros Hperm. unfold render_latex, bind, pure_call. rewrite Hp.
    by rewrite run_latex_cases, Hrun, Hrc, Hpdf, Hperm.
Qed.

End Artifact_claim.

(** C5 as the specification has it fails in three ways.  The engine
    exits with status zero and leaves no document: [render_latex] returns
    normally and there is no file at the output path.  The engine would
    leave a document, but the file name is empty: [render_latex] raises
    [ValueError] and nothing is written.  The engine leaves a document,
    but the rename is refused: [render_latex] raises [OSError] and the file
    at the output path is the old one. *)
Lemma C5_success_without_artifact :
  (render_latex env_silent "x" "report.tex" empty_world
   = (Ok tt, mkWorld ∅ ∅ 1 0)
   ∧ files (mkWorld ∅ ∅ 1 0) !! "report.pdf" = None)
  ∧ ((∃ cp, engine_run env_ok "x" empty_world = Some cp
            ∧ returncode cp = 0%Z
            ∧ cwd_after cp !! "input.pdf" = Some "%PDF-1.5")
     ∧ render_latex env_ok "x" "" empty_world = (Raise ValueError, empty_world))
  ∧ ((∃ cp, engine_run env_readonly "x" world_with_old_output = Some cp
            ∧ returncode cp = 0%Z
            ∧ cwd_after cp !! "input.pdf" = Some "%PDF-1.5")
     ∧ render_latex env_readonly "x" "out.tex" world_with_old_output
       = (Raise OSError, mkWorld {["out.pdf" := "old"]} ∅ 1 0)).
Proof.
  split_and!.
  - vm_compute. reflexivity.
  - reflexivity.
  - eexists. split_and!; vm_compute; reflexivity.
  - vm_compute. reflexivity.
  - eexists. split_and!; vm_compute; reflexivity.
  - vm_compute. reflexivity.
Qed.

Lemma C5_artifact_written_with_pdf_suffix_witness :
  ∃ out : string,
    (∃ pre, out = pre +:+ ".pdf")
    ∧ (∀ stem ext,
         "report.tex" = stem +:+ "." +:+ ext →
         stem ≠ EmptyString → ext ≠ EmptyString →
         pathlib.contains "." ext = false →
         out = path_string (leading_root "/srv//build/./report.tex")
                 (["srv"; "build"] ++ [stem +:+ ".pdf"]))
    ∧ (pathlib.contains "." "report.tex" = false
       ∨ (∃ rest, "report.tex" = "." +:+ rest
                  ∧ pathlib.contains "." rest = false)
       ∨ (∃ init, "report.tex" = init +:+ ".") →
       out = path_string (leading_root "/srv//build/./report.tex")
               (["srv"; "build"] ++ ["report.tex" +:+ ".pdf"]))
    ∧ (rename_permitted env_ok out = true →
       render_latex env_ok "x" "/srv//build/./report.tex"
         world_with_old_output
       = (Ok tt, set_files (insert out "%PDF-1.5")
                   (count_child world_with_old_output)))
    ∧ (rename_permitted env_ok out = false →
       render_latex env_ok "x" "/srv//build/./report.tex"
         world_with_old_output
       = (Raise OSError, count_child world_with_old_output)).
Proof.
  eapply (C5_artifact_written_with_pdf_suffix env_ok "x"
            "/srv//build/./report.tex" world_with_old_output).
  - vm_compute. reflexivity.
  - reflexivity.
  - vm_compute. reflexivity.
  - vm_compute. reflexivity.
Defined.

(** The output path for the file name of the witness, and the file
    written there. *)
Example artifact_of_report_tex :
  render_latex env_ok "x" "/srv//build/./report.tex" world_with_old_output
  = (Ok tt,
     mkWorld (<["/srv/build/report.pdf" := "%PDF-1.5"]> {["out.pdf" := "old"]})
       ∅ 1 0).
Proof. vm_compute. reflexivity. Qed.

(** Without the condition of C9 the result does depend on the process:
    a name of Jinja's own that the data does not define prints as the
    object the process has for it. *)
Example render_own_name_depends_on_process :
  render_template env_ok (mkTemplate [Name "lipsum"]) ∅
  ≠ render_template env_other_process (mkTemplate [Name "lipsum"]) ∅.
Proof. vm_compute. discriminate. Qed.
